(** * Tech Pulse pipeline: scraper, review bot and remote publisher

    A shallow embedding of [src/pipeline/scraper.py], [src/pipeline/bot.py]
    and [src/pipeline/publish_remote.py], and the properties of the candidate
    lifecycle proved about it.

    Conventions of the embedding.
    - A Python [str] is the list of its Unicode code points ([pystr]); slices
      such as [s[:60]] are [take 60 s].
    - A Python object that comes from JSON is a [value]; a [dict] keeps its
      insertion order and is an association list with unique keys.
    - A Python call that may raise returns a [result]; the exception classes
      that the modelled code can raise are the constructors of [exn].
    - A function that assigns into its argument returns the updated argument
      next to its result.
    - The clock, the feed parser, the language model and the content API are
      inputs of the functions that use them. *)

From Stdlib Require Import ZArith NArith QArith_base List String Ascii Lia.
From stdpp Require Import base option list gmap.

Local Open Scope N_scope.
Set Warnings "-register-all,-clear-no-such-hyp".

(** ** Python strings *)

Abbreviation pystr := (list N).

(** An ASCII literal of the source. *)
Definition lit (s : string) : pystr :=
  map N_of_ascii (list_ascii_of_string s).
Arguments lit : simpl never.

Definition in_range (lo hi c : N) : bool := (lo <=? c) && (c <=? hi).

Definition is_ascii (c : N) : bool := c <? 128.
Definition is_lower_az (c : N) : bool := in_range 97 122 c.
Definition is_upper_AZ (c : N) : bool := in_range 65 90 c.
Definition is_digit (c : N) : bool := in_range 48 57 c.
Definition hyphen : N := 45.
Definition underscore : N := 95.
Definition is_hyphen (c : N) : bool := c =? hyphen.

(** [str.isspace], which is also the class [\s] of [re] on [str] patterns. *)
Definition is_space (c : N) : bool :=
  in_range 9 13 c || in_range 28 32 c || (c =? 133) || (c =? 160)
  || (c =? 5760) || in_range 8192 8202 c || (c =? 8232) || (c =? 8233)
  || (c =? 8239) || (c =? 8287) || (c =? 12288).

Definition ascii_lower_char (c : N) : N := if is_upper_AZ c then c + 32 else c.
Definition ascii_upper_char (c : N) : N := if is_lower_az c then c - 32 else c.

Fixpoint drop_while (p : N → bool) (s : pystr) : pystr :=
  match s with
  | [] => []
  | c :: s' => if p c then drop_while p s' else s
  end.

(** [s.lstrip(chars)], [s.rstrip(chars)] and [s.strip(chars)], the set of
    characters given as a predicate. *)
Definition lstrip (p : N → bool) (s : pystr) : pystr := drop_while p s.
Definition rstrip (p : N → bool) (s : pystr) : pystr :=
  rev (drop_while p (rev s)).
Definition strip (p : N → bool) (s : pystr) : pystr := rstrip p (lstrip p s).

(** [re.sub(r"[C]+", rep, s)]: every maximal run of characters of the class
    [p] is replaced by [rep]. *)
Fixpoint sub_runs_from (p : N → bool) (rep : pystr) (in_run : bool) (s : pystr)
  : pystr :=
  match s with
  | [] => []
  | c :: s' =>
      if p c then
        if in_run then sub_runs_from p rep true s'
        else rep ++ sub_runs_from p rep true s'
      else c :: sub_runs_from p rep false s'
  end.

Definition sub_runs (p : N → bool) (rep : pystr) (s : pystr) : pystr :=
  sub_runs_from p rep false s.

(** [re.sub] of a one-character class [C] by the empty string: every
    character of the class is deleted. *)
Definition delete_chars (p : N → bool) (s : pystr) : pystr :=
  List.filter (λ c, negb (p c)) s.

Fixpoint is_prefix (a b : pystr) : bool :=
  match a, b with
  | [], _ => true
  | _ :: _, [] => false
  | x :: a', y :: b' => (x =? y) && is_prefix a' b'
  end.

(** [a in b] on two strings. *)
Fixpoint contains (a b : pystr) : bool :=
  is_prefix a b ||
  match b with
  | [] => false
  | _ :: b' => contains a b'
  end.

(** [a == b] on two strings. *)
Fixpoint str_eqb (a b : pystr) : bool :=
  match a, b with
  | [], [] => true
  | x :: a', y :: b' => (x =? y) && str_eqb a' b'
  | _, _ => false
  end.

(** [sep.join(parts)]. *)
Fixpoint join (sep : pystr) (parts : list pystr) : pystr :=
  match parts with
  | [] => []
  | [p] => p
  | p :: ps => p ++ sep ++ join sep ps
  end.

(** [s.replace(old, new)] for a one-character [old]. *)
Definition replace_char (old : N) (new : pystr) (s : pystr) : pystr :=
  flat_map (λ c, if c =? old then new else [c]) s.

(** [s.split("_", 1)]: [None] stands for the one-element list [[s]]. *)
Fixpoint split_once (sep : N) (s : pystr) : option (pystr * pystr) :=
  match s with
  | [] => None
  | c :: s' =>
      if c =? sep then Some ([], s')
      else match split_once sep s' with
           | Some (a, b) => Some (c :: a, b)
           | None => None
           end
  end.

(** ** JSON-shaped Python objects *)

Inductive value : Type :=
  | VNone
  | VBool (b : bool)
  | VInt (z : Z)
  | VFloat (q : Q)
  | VStr (s : pystr)
  | VList (l : list value)
  | VDict (d : list (pystr * value)).

Abbreviation dict := (list (list N * value)).

(** Truth value of an object, as [if x:], [not x] and [x or y] test it. *)
Definition truthy (v : value) : bool :=
  match v with
  | VNone => false
  | VBool b => b
  | VInt z => negb (z =? 0)%Z
  | VFloat q => negb (Qnum q =? 0)%Z
  | VStr s => negb (str_eqb s [])
  | VList l => match l with [] => false | _ => true end
  | VDict d => match d with [] => false | _ => true end
  end.

Definition is_none (v : value) : bool :=
  match v with VNone => true | _ => false end.

(** [v == "literal"]: an object that is not a string equals no string. *)
Definition eq_str (v : value) (s : pystr) : bool :=
  match v with VStr t => str_eqb t s | _ => false end.

(** [v in [s1, ..., sn]] for a list of strings. *)
Definition in_strs (v : value) (l : list pystr) : bool :=
  existsb (eq_str v) l.
Arguments in_strs : simpl never.

(** ** Exceptions *)

Inductive exn : Type :=
  | KeyError
  | AttributeError
  | TypeError
  | ValueError
  | RequestError.

Inductive result (A : Type) : Type :=
  | Ok (a : A)
  | Raise (e : exn).
Arguments Ok {A} a.
Arguments Raise {A} e.

#[global] Instance result_ret : MRet result := λ A a, Ok a.
#[global] Instance result_bind : MBind result := λ A B f m,
  match m with
  | Ok a => f a
  | Raise e => Raise e
  end.

(** [try: body except Exception: return None]. *)
Definition catch_all {A} (m : result (option A)) : option A :=
  match m with
  | Ok o => o
  | Raise _ => None
  end.

(** ** Dictionaries *)

Fixpoint dict_get (k : pystr) (d : dict) : option value :=
  match d with
  | [] => None
  | (k', v) :: d' => if str_eqb k k' then Some v else dict_get k d'
  end.

(** [d[k] = v]: an existing key keeps its position, a new key goes last. *)
Fixpoint dict_set (k : pystr) (v : value) (d : dict) : dict :=
  match d with
  | [] => [(k, v)]
  | (k', v') :: d' =>
      if str_eqb k k' then (k, v) :: d' else (k', v') :: dict_set k v d'
  end.

Definition dict_has (k : pystr) (d : dict) : bool :=
  match dict_get k d with Some _ => true | None => false end.

(** [d.get(k, default)]. *)
Definition get_or (k : pystr) (default : value) (d : dict) : value :=
  match dict_get k d with Some v => v | None => default end.

(** [d.get(k)]. *)
Definition get_none (k : pystr) (d : dict) : value := get_or k VNone d.

(** [d[k]]. *)
Definition subscript (k : pystr) (d : dict) : result value :=
  match dict_get k d with Some v => Ok v | None => Raise KeyError end.

(** [x.get(k, default)] on an arbitrary object: only a dict has [get]. *)
Definition obj_get (k : pystr) (default : value) (x : value) : result value :=
  match x with
  | VDict d => Ok (get_or k default d)
  | _ => Raise AttributeError
  end.

(** ** Formatting *)

Definition digit_char (n : N) : N := 48 + n mod 10.

Fixpoint dec_from (fuel : nat) (n : N) (acc : pystr) : pystr :=
  match fuel with
  | O => acc
  | S fuel' =>
      let acc' := digit_char n :: acc in
      if n / 10 =? 0 then acc' else dec_from fuel' (n / 10) acc'
  end.

(** [str(n)] for a natural number. *)
Definition N_dec (n : N) : pystr := dec_from (S (N.size_nat n)) n [].

Definition Z_dec (z : Z) : pystr :=
  match z with
  | Zneg p => hyphen :: N_dec (Npos p)
  | _ => N_dec (Z.to_N z)
  end.

(** ** The Python runtime and the libraries

    The Unicode tables of the interpreter and the third-party libraries are
    not code of this repository.  The functions that depend on them are
    taken from a [PyRuntime], and the properties hold for every one.
    [ascii_runtime] below runs the examples: its case mappings are the ASCII
    ones and its NFKD is the identity, as Python has them on ASCII text; its
    other functions are stand-ins on whose values no example depends. *)

Class PyRuntime : Type := {
  (** [str.lower] and [str.upper] *)
  str_lower : pystr → pystr;
  str_upper : pystr → pystr;
  (** [unicodedata.normalize("NFKD", s)] *)
  nfkd : pystr → pystr;
  (** the class [\w] of [re] on the code points from 128 on *)
  uni_word : N → bool;
  (** [float(s)] on a string; [None] when it raises [ValueError] *)
  float_of_str : pystr → option Q;
  (** [str(x)] on floats, lists and dicts *)
  fmt_other : value → pystr;
  (** [BeautifulSoup(raw, "html.parser").get_text(separator=" ", strip=True)] *)
  get_text : pystr → pystr;
  (** [base64.b64encode(s.encode("utf-8")).decode("ascii")] *)
  b64encode : pystr → pystr;
  (** on ASCII text the case mappings are the ASCII ones *)
  str_lower_ascii : ∀ s, forallb is_ascii s = true →
    str_lower s = map ascii_lower_char s;
}.

#[export] Instance ascii_runtime : PyRuntime := {|
  str_lower := map ascii_lower_char;
  str_upper := map ascii_upper_char;
  nfkd := λ s, s;
  uni_word := λ _, true;
  float_of_str := λ _, None;
  fmt_other := λ _, [];
  get_text := λ s, s;
  b64encode := λ s, s;
  str_lower_ascii := λ s _, eq_refl;
|}.

Section Formatting.
Context `{PyRuntime}.

(** [str(x)], which is also what an f-string field [{x}] prints. *)
Definition fmt (v : value) : pystr :=
  match v with
  | VStr s => s
  | VNone => lit "None"
  | VBool true => lit "True"
  | VBool false => lit "False"
  | VInt z => Z_dec z
  | _ => fmt_other v
  end.

(** [float(x)]. *)
Definition py_float (v : value) : result Q :=
  match v with
  | VFloat q => Ok q
  | VInt z => Ok (Qmake z 1)
  | VBool b => Ok (Qmake (if b then 1 else 0) 1)
  | VStr s =>
      match float_of_str s with
      | Some q => Ok q
      | None => Raise ValueError
      end
  | _ => Raise TypeError
  end.
End Formatting.

(** [x[k]] on an arbitrary object and a string key. *)
Definition obj_subscript (k : pystr) (x : value) : result value :=
  match x with
  | VDict d => subscript k d
  | _ => Raise TypeError
  end.

(** [x[:n]]. *)
Definition slice_to (n : nat) (x : value) : result value :=
  match x with
  | VStr s => Ok (VStr (take n s))
  | VList l => Ok (VList (take n l))
  | _ => Raise TypeError
  end.

(** * scraper.py *)

Module scraper.
Section Defs.
Context `{PyRuntime}.

Definition VALID_CATEGORIES : list pystr :=
  [lit "ai"; lit "gaming"; lit "space"; lit "technology"; lit "medicine";
   lit "society"; lit "robotics"].

(** An entry of a parsed feed, with the attributes that the scraper reads.
    An attribute that the entry does not have is [None].  For the two
    time attributes, [Some None] is a time tuple from which [datetime]
    cannot be built and [Some (Some s)] one whose [isoformat()] is [s]. *)
Record FeedItem : Type := {
  item_link : option pystr;
  item_title : option value;
  item_summary : option pystr;
  item_description : option pystr;
  item_published_parsed : option (option pystr);
  item_updated_parsed : option (option pystr);
}.

Definition _clean_html (raw_html : pystr) : pystr :=
  if negb (truthy (VStr raw_html)) then [] else get_text raw_html.

(** [now] is [datetime.now(timezone.utc).isoformat()]. *)
Definition _parse_published (now : pystr) (entry : FeedItem) : pystr :=
  match item_published_parsed entry with
  | Some (Some s) => s
  | _ =>
      match item_updated_parsed entry with
      | Some (Some s) => s
      | _ => now
      end
  end.

(** The body of the inner loop of [scrape_feeds] (lines 136-154), on the
    pair of [new_entries] and [seen]. *)
Definition scrape_entry (name url : value) (now : pystr)
    (st : list dict * gset pystr) (entry : FeedItem)
  : list dict * gset pystr :=
  let link := default [] (item_link entry) in
  if negb (truthy (VStr link)) || bool_decide (link ∈ st.2) then st
  else
    let summary_raw :=
      let s := default [] (item_summary entry) in
      if truthy (VStr s) then s else default [] (item_description entry) in
    let summary := _clean_html summary_raw in
    (st.1 ++ [[(lit "source_name", name);
               (lit "source_url", url);
               (lit "title", default (VStr (lit "Untitled")) (item_title entry));
               (lit "link", VStr link);
               (lit "published", VStr (_parse_published now entry));
               (lit "summary", VStr (take 2000 summary))]],
     {[link]} ∪ st.2).

(** The body of the outer loop (lines 123-154).  [parse url] is
    [feedparser.parse(url).entries], or [None] when the call raises. *)
Definition scrape_source (parse : value → option (list FeedItem))
    (now : pystr) (st : list dict * gset pystr) (source : dict)
  : list dict * gset pystr :=
  let name := get_or (lit "name") (VStr (lit "Unknown")) source in
  let url := get_or (lit "url") (VStr []) source in
  if negb (truthy url) then st
  else
    match parse url with
    | None => st
    | Some entries => foldl (scrape_entry name url now) st entries
    end.

(** [scrape_feeds]: [sources] is what [load_sources()] returns and [seen]
    what [load_seen()] returns.  The result is the list returned and the
    set handed to [save_seen]. *)
Definition scrape_feeds (sources : list dict) (seen : gset pystr)
    (parse : value → option (list FeedItem)) (now : pystr)
  : list dict * gset pystr :=
  foldl (scrape_source parse now) ([], seen) sources.

(** [_build_known_locations_hint] (lines 166-173). *)
Definition _build_known_locations_hint (geo_map : dict) : result pystr :=
  match get_or (lit "known_locations") (VDict []) geo_map,
        get_or (lit "company_hq") (VDict []) geo_map with
  | VDict known, VDict companies =>
      pairs ← mapM (λ c, hq ← subscript (lit "company_hq") geo_map;
                         v ← obj_subscript c hq;
                         Ok (c ++ lit " -> " ++ fmt v)) (map fst companies);
      Ok (lit "Known locations: " ++ join (lit ", ") (map fst known)
          ++ [10] ++ lit "Known company HQs: " ++ join (lit ", ") pairs)
  | _, _ => Raise AttributeError
  end.

(** [key.lower() in geo_name.lower()], where [geo_name] is whatever the
    model put under ["name"]. *)
Definition lower_in (key : pystr) (geo_name : value) : result bool :=
  match geo_name with
  | VStr s => Ok (contains (str_lower key) (str_lower s))
  | _ => Raise AttributeError
  end.

(** The dict built at lines 191-196 and again at lines 202-207. *)
Definition canonical (loc : value) : result value :=
  name ← obj_subscript (lit "name") loc;
  lat ← obj_subscript (lit "lat") loc;
  lon ← obj_subscript (lit "lon") loc;
  cc ← obj_subscript (lit "countryCode") loc;
  Ok (VDict [(lit "name", name); (lit "lat", lat); (lit "lon", lon);
             (lit "countryCode", cc)]).

(** The first loop of [_resolve_geo] (lines 189-196) over
    [known.items()]; [None] when the loop ends without a [return]. *)
Fixpoint match_known (geo_name : value) (items : dict)
  : result (option value) :=
  match items with
  | [] => Ok None
  | (key, loc) :: rest =>
      hit ← lower_in key geo_name;
      if hit : bool then g ← canonical loc; Ok (Some g)
      else match_known geo_name rest
  end.

(** [hq_key in known]: the keys of [known] are strings; a list or a dict
    is not hashable. *)
Definition key_in (hq_key : value) (known : dict) : result bool :=
  match hq_key with
  | VStr k => Ok (dict_has k known)
  | VList _ | VDict _ => Raise TypeError
  | _ => Ok false
  end.

(** The second loop (lines 199-207) over [company_hq.items()]. *)
Fixpoint match_company (geo_name : value) (known : dict) (items : dict)
  : result (option value) :=
  match items with
  | [] => Ok None
  | (company, hq_key) :: rest =>
      hit ← lower_in company geo_name;
      found ← (if hit : bool then key_in hq_key known else Ok false);
      if found : bool then
        match hq_key with
        | VStr k => loc ← subscript k known; g ← canonical loc; Ok (Some g)
        | _ => Raise TypeError
        end
      else match_company geo_name known rest
  end.

(** The fall-back of lines 210-218. *)
Definition model_coordinates (geo_raw : dict) : result value :=
  if negb (is_none (get_none (lit "lat") geo_raw))
     && negb (is_none (get_none (lit "lon") geo_raw)) then
    lat_raw ← subscript (lit "lat") geo_raw;
    lat ← py_float lat_raw;
    lon_raw ← subscript (lit "lon") geo_raw;
    lon ← py_float lon_raw;
    Ok (VDict [(lit "name", get_or (lit "name") (VStr (lit "Unknown")) geo_raw);
               (lit "lat", VFloat lat);
               (lit "lon", VFloat lon);
               (lit "countryCode", get_or (lit "countryCode") (VStr []) geo_raw)])
  else Ok VNone.

(** [_resolve_geo]; the [None] of Python is [VNone]. *)
Definition _resolve_geo (geo_raw : value) (geo_map : dict) : result value :=
  match geo_raw with
  | VDict ((_ :: _) as raw) =>
      let geo_name := get_or (lit "name") (VStr []) raw in
      let known := get_or (lit "known_locations") (VDict []) geo_map in
      let company_hq := get_or (lit "company_hq") (VDict []) geo_map in
      match known with
      | VDict known =>
          r ← match_known geo_name known;
          match r with
          | Some g => Ok g
          | None =>
              match company_hq with
              | VDict company_hq =>
                  r ← match_company geo_name known company_hq;
                  match r with
                  | Some g => Ok g
                  | None => model_coordinates raw
                  end
              | _ => Raise AttributeError
              end
          end
      | _ => Raise AttributeError
      end
  | _ => Ok VNone
  end.

(** Lines 303-306 of [process_article]; [res] is the [result] of the
    source, the parsed response. *)
Definition validate_category (res : value) : result pystr :=
  c ← obj_get (lit "category") (VStr (lit "technology")) res;
  match c with
  | VStr c =>
      let category := str_lower c in
      if negb (in_strs (VStr category) VALID_CATEGORIES)
      then Ok (lit "technology") else Ok category
  | _ => Raise AttributeError
  end.

(** Lines 312-315. *)
Definition validate_tags (res : value) : result (list value) :=
  tags ← obj_get (lit "tags") (VList []) res;
  let tags := match tags with VList l => l | _ => [] end in
  Ok (map (λ t, VStr (strip is_space (str_lower (fmt t)))) (take 7 tags)).

(** [process_article].  [response] is what lines 284-301 end with: the
    object that [json.loads] returns for the answer of the model, or the
    exception of the call or of the parser.  The text of the prompt is not
    modelled, only the subscripts that building it evaluates. *)
Definition process_article (OPENAI_API_KEY : pystr) (response : result value)
    (entry : dict) (geo_map : dict) : result (option dict) :=
  if negb (truthy (VStr OPENAI_API_KEY)) then Ok None
  else
    _ ← _build_known_locations_hint geo_map;
    _ ← subscript (lit "source_name") entry;
    entry_title ← subscript (lit "title") entry;
    _ ← subscript (lit "link") entry;
    _ ← subscript (lit "published") entry;
    _ ← subscript (lit "summary") entry;
    Ok (catch_all (
      res ← response;
      category ← validate_category res;
      excerpt ← obj_get (lit "excerpt") (VStr []) res;
      excerpt ← slice_to 250 excerpt;
      tags ← validate_tags res;
      geo_raw ← obj_get (lit "geo") VNone res;
      geo ← _resolve_geo geo_raw geo_map;
      source_name ← subscript (lit "source_name") entry;
      source_url ← subscript (lit "source_url") entry;
      link ← subscript (lit "link") entry;
      published ← subscript (lit "published") entry;
      title ← obj_get (lit "title") entry_title res;
      content ← obj_get (lit "content") (VStr []) res;
      Ok (Some [(lit "source_name", source_name);
                (lit "source_url", source_url);
                (lit "original_link", link);
                (lit "published", published);
                (lit "category", VStr category);
                (lit "title", title);
                (lit "excerpt", excerpt);
                (lit "content", content);
                (lit "tags", VList tags);
                (lit "geo", geo)]))).

End Defs.
End scraper.

(** ** The clock and the content API *)

(** [datetime.now(timezone.utc)]: the fields of the date and the string that
    [isoformat()] gives. *)
Record clock : Type := {
  clk_year : N;
  clk_month : N;
  clk_day : N;
  clk_isoformat : pystr;
}.

(** [strftime("%Y-%m-%d")], for a year of four digits. *)
Definition strftime_ymd (c : clock) : pystr :=
  [digit_char (clk_year c / 1000); digit_char (clk_year c / 100);
   digit_char (clk_year c / 10); digit_char (clk_year c)]
  ++ [hyphen] ++ [digit_char (clk_month c / 10); digit_char (clk_month c)]
  ++ [hyphen] ++ [digit_char (clk_day c / 10); digit_char (clk_day c)].

(** A [requests.Response]: [json] is what [resp.json()] returns or raises. *)
Record response : Type := {
  status_code : Z;
  json : result value;
  text : pystr;
}.

Inductive request : Type :=
  | GET (url : pystr)
  | PUT (url : pystr) (payload : dict).

(** A method of [str] called on an arbitrary object. *)
Definition as_str (v : value) : result pystr :=
  match v with
  | VStr s => Ok s
  | _ => Raise AttributeError
  end.

(** [for t in x]. *)
Definition iterate (x : value) : result (list value) :=
  match x with
  | VList l => Ok l
  | VStr s => Ok (map (λ c, VStr [c]) s)
  | VDict d => Ok (map (λ kv, VStr kv.1) d)
  | _ => Raise TypeError
  end.

(** * publish_remote.py *)

Module publish_remote.
Section Defs.
Context `{PyRuntime}.

(** The module-level configuration, the clock and the content API. *)
Record world : Type := {
  GITHUB_TOKEN : pystr;
  GITHUB_REPO : pystr;
  GITHUB_BRANCH : pystr;
  now : clock;
  requests_get : pystr → result response;
  requests_put : pystr → dict → result response;
}.

Definition GITHUB_API : pystr := lit "https://api.github.com".

Definition VALID_CATEGORIES : list pystr :=
  [lit "ai"; lit "gaming"; lit "space"; lit "technology"; lit "medicine";
   lit "society"; lit "robotics"].

Definition quote : N := 34.
Definition escape_quotes (s : pystr) : pystr :=
  replace_char quote [92; quote] s.
Definition quoted (s : pystr) : pystr := [quote] ++ s ++ [quote].

(** [generate_mdx] (lines 46-95). *)
Definition generate_mdx (data : dict) : result pystr :=
  let geo := let g := get_none (lit "geo") data in
             if truthy g then g else VDict [] in
  let source := get_or (lit "source") (VDict []) data in
  let image := get_or (lit "image") (VDict []) data in
  let tags := get_or (lit "tags") (VList []) data in
  id ← subscript (lit "id") data;
  title ← subscript (lit "title") data;
  title ← as_str title;
  category ← subscript (lit "category") data;
  date ← subscript (lit "date") data;
  excerpt ← subscript (lit "excerpt") data;
  excerpt ← as_str excerpt;
  source_name ← obj_get (lit "name") (VStr []) source;
  source_url ← obj_get (lit "url") (VStr []) source;
  image_url ←
    obj_get (lit "url") (VStr (lit "/images/articles/placeholder.jpg")) image;
  image_alt ← obj_get (lit "alt") (VStr (lit "Article image")) image;
  image_alt ← as_str image_alt;
  tag_items ← iterate tags;
  let lines :=
    [lit "---";
     lit "id: " ++ quoted (fmt id);
     lit "title: " ++ quoted (escape_quotes title);
     lit "category: " ++ quoted (fmt category);
     lit "date: " ++ quoted (fmt date);
     lit "excerpt: " ++ quoted (escape_quotes excerpt);
     lit "source:";
     lit "  name: " ++ quoted (fmt source_name);
     lit "  url: " ++ quoted (fmt source_url);
     lit "image:";
     lit "  url: " ++ quoted (fmt image_url);
     lit "  alt: " ++ quoted (escape_quotes image_alt);
     lit "tags: [" ++ join (lit ", ") (map (λ t, quoted (fmt t)) tag_items)
       ++ lit "]"] in
  lat ← (if truthy geo then obj_get (lit "lat") VNone geo else Ok VNone);
  geo_lines ←
    (if truthy geo && negb (is_none lat) then
       name ← obj_get (lit "name") (VStr (lit "Global")) geo;
       lat ← obj_subscript (lit "lat") geo;
       lon ← obj_subscript (lit "lon") geo;
       cc ← obj_get (lit "countryCode") (VStr (lit "XX")) geo;
       Ok [lit "geo:";
           lit "  name: " ++ quoted (fmt name);
           lit "  lat: " ++ fmt lat;
           lit "  lon: " ++ fmt lon;
           lit "  countryCode: " ++ quoted (fmt cc)]
     else
       Ok [lit "geo:"; lit "  name: " ++ quoted (lit "Global");
           lit "  lat: 0"; lit "  lon: 0";
           lit "  countryCode: " ++ quoted (lit "XX")]);
  content ← as_str (get_or (lit "content") (VStr []) data);
  Ok (join [10]
        (lines ++ geo_lines ++
         [lit "featured: "
            ++ str_lower (fmt (get_or (lit "featured") (VBool false) data));
          lit "approved: true";
          lit "---";
          [];
          strip is_space content;
          []])).

Definition contents_url (W : world) (file_path : pystr) : pystr :=
  GITHUB_API ++ lit "/repos/" ++ GITHUB_REPO W ++ lit "/contents/"
  ++ file_path.

(** [get_existing_file_sha] (lines 98-104); the [None] of Python is
    [VNone]. *)
Definition get_existing_file_sha (W : world) (file_path : pystr)
  : result value :=
  resp ← requests_get W (contents_url W file_path);
  if (status_code resp =? 200)%Z then
    body ← json resp;
    obj_get (lit "sha") VNone body
  else Ok VNone.

(** Lines 118-122: the category used for the path, and the article after
    the assignment of line 122. *)
Definition validate_category (article : dict) : pystr * dict :=
  let category := get_or (lit "category") (VStr (lit "technology")) article in
  match category with
  | VStr c =>
      if negb (in_strs category VALID_CATEGORIES)
      then (lit "technology",
            dict_set (lit "category") (VStr (lit "technology")) article)
      else (c, article)
  | _ => (lit "technology",
          dict_set (lit "category") (VStr (lit "technology")) article)
  end.

(** [unicodedata.normalize("NFKD", s).encode("ascii", "ignore")
    .decode("ascii")]. *)
Definition ascii_fold (s : pystr) : pystr := List.filter is_ascii (nfkd s).

Definition is_az09 (c : N) : bool := is_lower_az c || is_digit c.

(** Lines 127-132: the slug of a title. *)
Definition title_slug (title : pystr) : pystr :=
  let slug := str_lower title in
  let slug := ascii_fold slug in
  let slug := sub_runs (λ c, negb (is_az09 c)) [hyphen] slug in
  rstrip is_hyphen (take 60 (strip is_hyphen slug)).

(** Lines 137-140: an identifier that the article brings along. *)
Definition sanitize_id (old_id : pystr) : pystr :=
  let sanitized := ascii_fold old_id in
  let sanitized :=
    sub_runs (λ c, negb (is_az09 c || is_hyphen c)) [hyphen]
      (str_lower sanitized) in
  rstrip is_hyphen (strip is_hyphen sanitized).

(** Lines 124-142: the article after the identifier step. *)
Definition ensure_id (clk : clock) (article : dict) : result dict :=
  if negb (truthy (get_none (lit "id") article)) then
    title ← as_str (get_or (lit "title") (VStr (lit "untitled")) article);
    Ok (dict_set (lit "id")
          (VStr (strftime_ymd clk ++ [hyphen] ++ title_slug title)) article)
  else
    match get_none (lit "id") article with
    | VStr old_id =>
        let sanitized := sanitize_id old_id in
        if negb (str_eqb sanitized old_id)
        then Ok (dict_set (lit "id") (VStr sanitized) article)
        else Ok article
    | _ => Raise TypeError
    end.

(** Lines 144-146. *)
Definition ensure_date (clk : clock) (article : dict) : dict :=
  if negb (truthy (get_none (lit "date") article))
  then dict_set (lit "date") (VStr (clk_isoformat clk)) article
  else article.

(** What a call of [publish_to_github] leaves behind: the dict that the
    caller passed, as it is after the call; the requests sent, in order;
    and the dict returned or the exception raised. *)
Record outcome : Type := {
  article_after : dict;
  sent : list request;
  returned : result dict;
}.

Definition failure (message : pystr) : dict :=
  [(lit "success", VBool false); (lit "message", VStr message);
   (lit "url", VStr [])].

(** Lines 157-165: the body of the create-or-update request. *)
Definition build_payload (W : world) (article : dict) (mdx_content : pystr)
    (existing_sha : value) : result dict :=
  title ← subscript (lit "title") article;
  title60 ← slice_to 60 title;
  let payload :=
    [(lit "message", VStr (lit "Add article: " ++ fmt title60));
     (lit "content", VStr (b64encode mdx_content));
     (lit "branch", VStr (GITHUB_BRANCH W))] in
  if truthy existing_sha then
    Ok (dict_set (lit "message")
          (VStr (lit "Update article: " ++ fmt title60))
          (dict_set (lit "sha") existing_sha payload))
  else Ok payload.

(** Lines 169-184: the dict returned for the answer to the request. *)
Definition report (article : dict) (file_path : pystr) (existing_sha : value)
    (resp : response) : result dict :=
  if (status_code resp =? 200)%Z || (status_code resp =? 201)%Z then
    body ← json resp;
    content ← obj_get (lit "content") (VDict []) body;
    file_url ← obj_get (lit "html_url") (VStr []) content;
    let action :=
      if truthy existing_sha then lit "Updated" else lit "Published" in
    title ← subscript (lit "title") article;
    Ok [(lit "success", VBool true);
        (lit "message", VStr (action ++ lit ": " ++ fmt title));
        (lit "url", file_url);
        (lit "file_path", VStr file_path)]
  else
    body ← json resp;
    error ← obj_get (lit "message") (VStr (take 200 (text resp))) body;
    Ok (failure (lit "GitHub API error (" ++ Z_dec (status_code resp)
                 ++ lit "): " ++ fmt error)).

(** [publish_to_github] (lines 107-184). *)
Definition publish_to_github (W : world) (article : dict) : outcome :=
  if negb (truthy (VStr (GITHUB_TOKEN W))) then
    {| article_after := article; sent := [];
       returned := Ok (failure (lit "GITHUB_TOKEN not set")) |}
  else if negb (truthy (VStr (GITHUB_REPO W))) then
    {| article_after := article; sent := [];
       returned := Ok (failure (lit "GITHUB_REPO not set")) |}
  else
    let '(category, article) := validate_category article in
    match ensure_id (now W) article with
    | Raise e => {| article_after := article; sent := []; returned := Raise e |}
    | Ok article =>
    let article := ensure_date (now W) article in
    match generate_mdx article with
    | Raise e => {| article_after := article; sent := []; returned := Raise e |}
    | Ok mdx_content =>
    let file_path :=
      lit "content/" ++ category ++ lit "/"
      ++ fmt (get_none (lit "id") article) ++ lit ".mdx" in
    let url := contents_url W file_path in
    match get_existing_file_sha W file_path with
    | Raise e =>
        {| article_after := article; sent := [GET url]; returned := Raise e |}
    | Ok existing_sha =>
    match build_payload W article mdx_content existing_sha with
    | Raise e =>
        {| article_after := article; sent := [GET url]; returned := Raise e |}
    | Ok payload =>
    match requests_put W url payload with
    | Raise e =>
        {| article_after := article; sent := [GET url; PUT url payload];
           returned := Raise e |}
    | Ok resp =>
        {| article_after := article; sent := [GET url; PUT url payload];
           returned := report article file_path existing_sha resp |}
    end end end end end.
End Defs.
End publish_remote.

(** * bot.py *)

Module bot.
Section Defs.
Context `{PyRuntime}.
Import publish_remote.

(** The in-memory stores of lines 55-57.  [published] holds whatever the
    candidates had under ["title"]. *)
Record stores : Type := {
  pending : gmap pystr dict;
  published : list value;
  editing : gmap Z pystr;
}.

Definition newspaper : pystr := [128240].

Definition CATEGORY_EMOJI : list (pystr * pystr) :=
  [(lit "ai", [129504]); (lit "gaming", [127918]); (lit "space", [128640]);
   (lit "technology", [9881; 65039]); (lit "medicine", [128138]);
   (lit "society", [128101]); (lit "robotics", [129302])].

(** The class [\w]. *)
Definition is_word (c : N) : bool :=
  if is_ascii c
  then is_lower_az c || is_upper_AZ c || is_digit c || (c =? underscore)
  else uni_word c.

Definition slugify (text : pystr) : pystr :=
  let text := strip is_space (str_lower text) in
  let text :=
    delete_chars (λ c, negb (is_word c || is_space c || is_hyphen c)) text in
  let text := sub_runs (λ c, is_space c || (c =? underscore)) [hyphen] text in
  let text := sub_runs is_hyphen [hyphen] text in
  strip is_hyphen (take 60 text).

Definition make_article_id (clk : clock) (title : value) : result pystr :=
  title ← as_str title;
  Ok (strftime_ymd clk ++ [hyphen] ++ slugify title).

(** [CATEGORY_EMOJI.get(cat, default)]: a list or a dict is not hashable. *)
Definition emoji_for (cat : value) : result pystr :=
  match cat with
  | VStr c =>
      Ok (match find (λ kv, str_eqb c kv.1) CATEGORY_EMOJI with
          | Some kv => kv.2
          | None => newspaper
          end)
  | VList _ | VDict _ => Raise TypeError
  | _ => Ok newspaper
  end.

(** [format_candidate] (lines 88-103). *)
Definition format_candidate (article : dict) : result pystr :=
  let cat := get_or (lit "category") (VStr (lit "technology")) article in
  emoji ← emoji_for cat;
  geo_name ←
    obj_get (lit "name") (VStr (lit "Global"))
      (get_or (lit "geo") (VDict []) article);
  first_tags ← slice_to 5 (get_or (lit "tags") (VList []) article);
  tag_items ← iterate first_tags;
  tags ← mapM (λ t, t ← as_str t;
                    Ok ([35] ++ replace_char hyphen [underscore] t))
              tag_items;
  let tags := join [32] tags in
  cat_upper ← as_str cat;
  let cat_upper := str_upper cat_upper in
  excerpt ← slice_to 200 (get_or (lit "excerpt") (VStr []) article);
  source_name ←
    obj_get (lit "name") (VStr (lit "Unknown"))
      (get_or (lit "source") (VDict []) article);
  Ok (newspaper ++ lit " <b>NEW ARTICLE CANDIDATE</b>" ++ [10; 10]
      ++ lit "Category: " ++ emoji ++ lit " <b>" ++ cat_upper ++ lit "</b>"
      ++ [10]
      ++ lit "Title: <b>"
      ++ fmt (get_or (lit "title") (VStr (lit "Untitled")) article)
      ++ lit "</b>" ++ [10; 10]
      ++ lit "Excerpt: <i>" ++ fmt excerpt ++ lit "</i>" ++ [10; 10]
      ++ lit "Source: " ++ fmt source_name ++ [10]
      ++ lit "Location: " ++ [128205] ++ lit " " ++ fmt geo_name ++ [10]
      ++ lit "Tags: " ++ tags ++ [10]).

(** What the bot sends to the admin; a message carries the text that
    the source interpolates into it. *)
Inductive reply : Type :=
  | NoLongerAvailable
  | Publishing (title : pystr)
  | Published (title : pystr)
  | PublishFailed (title : pystr) (message : pystr)
  | Rejected (title : pystr)
  | EditPrompt (title : pystr)
  | TitleUpdated (text : pystr) (buttons_for : pystr)
  | Candidate (text : pystr) (buttons_for : pystr)
  | ScrapeNothing
  | ScrapeFound (n : nat)
  | ScrapeError.

(** What a handler leaves behind: the stores, the messages sent, and the
    exception that ended it, if one did. *)
Record handled : Type := {
  state : stores;
  replies : list reply;
  raised : option exn;
}.

(** Lines 205-220: the dict handed to the publisher. *)
Definition article_payload (clk : clock) (article_id : pystr)
    (article : dict) : result dict :=
  let date :=
    let p := get_none (lit "published") article in
    if truthy p then p
    else get_or (lit "date") (VStr (clk_isoformat clk)) article in
  let source := get_or (lit "source") (VDict []) article in
  default_name ← obj_get (lit "name") (VStr (lit "Unknown")) source;
  let source := get_or (lit "source") (VDict []) article in
  default_url ← obj_get (lit "url") (VStr []) source;
  Ok [(lit "id", VStr article_id);
      (lit "title", get_or (lit "title") (VStr (lit "Untitled")) article);
      (lit "category",
         get_or (lit "category") (VStr (lit "technology")) article);
      (lit "date", date);
      (lit "excerpt", get_or (lit "excerpt") (VStr []) article);
      (lit "source",
         VDict [(lit "name", get_or (lit "source_name") default_name article);
                (lit "url", get_or (lit "original_link") default_url article)]);
      (lit "image",
         get_or (lit "image")
           (VDict [(lit "url", VStr (lit "/images/articles/placeholder.jpg"));
                   (lit "alt", VStr (lit "Article image"))]) article);
      (lit "tags", get_or (lit "tags") (VList []) article);
      (lit "geo", get_none (lit "geo") article);
      (lit "featured", get_or (lit "featured") (VBool false) article);
      (lit "content", get_or (lit "content") (VStr []) article)].

Definition with_pending (st : stores) (p : gmap pystr dict) : stores :=
  {| pending := p; published := published st; editing := editing st |}.

(** The branch [action == "approve"] of [handle_callback] (lines 198-239). *)
Definition approve (W : world) (st : stores) (article_id : pystr)
    (article : dict) : handled :=
  match subscript (lit "title") article with
  | Raise e => {| state := st; replies := []; raised := Some e |}
  | Ok title =>
  let announced := [Publishing (fmt title)] in
  match article_payload (now W) article_id article with
  | Raise e => {| state := st; replies := announced; raised := Some e |}
  | Ok payload =>
  match returned (publish_to_github W payload) with
  | Raise e => {| state := st; replies := announced; raised := Some e |}
  | Ok result =>
  match subscript (lit "success") result with
  | Raise e => {| state := st; replies := announced; raised := Some e |}
  | Ok success =>
      if truthy success then
        {| state :=
             {| pending := delete article_id (pending st);
                published := published st ++ [title];
                editing := editing st |};
           replies := announced ++ [Published (fmt title)];
           raised := None |}
      else
        match subscript (lit "message") result with
        | Raise e => {| state := st; replies := announced; raised := Some e |}
        | Ok message =>
            {| state := st;
               replies := announced ++ [PublishFailed (fmt title) (fmt message)];
               raised := None |}
        end
  end end end end.

(** The branch [action == "reject"] (lines 241-247). *)
Definition reject (st : stores) (article_id : pystr) (article : dict)
  : handled :=
  match subscript (lit "title") article with
  | Raise e => {| state := st; replies := []; raised := Some e |}
  | Ok title =>
      {| state := with_pending st (delete article_id (pending st));
         replies := [Rejected (fmt title)];
         raised := None |}
  end.

(** The branch [action == "edit"] (lines 249-255). *)
Definition edit (st : stores) (from_user : Z) (article_id : pystr)
    (article : dict) : handled :=
  let st := {| pending := pending st; published := published st;
               editing := <[from_user := article_id]> (editing st) |} in
  match subscript (lit "title") article with
  | Raise e => {| state := st; replies := []; raised := Some e |}
  | Ok title =>
      {| state := st; replies := [EditPrompt (fmt title)]; raised := None |}
  end.

(** [handle_callback] (lines 177-255): [data] is [query.data] and
    [from_user] is [query.from_user.id]. *)
Definition handle_callback (W : world) (st : stores) (data : pystr)
    (from_user : Z) : handled :=
  let quiet := {| state := st; replies := []; raised := None |} in
  if negb (truthy (VStr data)) then quiet
  else
    match split_once underscore data with
    | None => quiet
    | Some (action, article_id) =>
        match pending st !! article_id with
        | Some ((_ :: _) as article) =>
            if str_eqb action (lit "approve") then
              approve W st article_id article
            else if str_eqb action (lit "reject") then
              reject st article_id article
            else if str_eqb action (lit "edit") then
              edit st from_user article_id article
            else quiet
        | _ => {| state := st; replies := [NoLongerAvailable];
                  raised := None |}
        end
    end.

(** [handle_message] (lines 258-283): [user_id] is
    [update.effective_user.id] and [text] is [update.message.text]. *)
Definition handle_message (W : world) (st : stores) (user_id : Z)
    (text : pystr) : handled :=
  match editing st !! user_id with
  | None => {| state := st; replies := []; raised := None |}
  | Some article_id =>
      let st := {| pending := pending st; published := published st;
                   editing := delete user_id (editing st) |} in
      match pending st !! article_id with
      | Some ((_ :: _) as article) =>
          let new_title := strip is_space text in
          let article := dict_set (lit "title") (VStr new_title) article in
          match make_article_id (now W) (VStr new_title) with
          | Raise e => {| state := st; replies := []; raised := Some e |}
          | Ok new_id =>
              let article := dict_set (lit "id") (VStr new_id) article in
              let st :=
                with_pending st
                  (<[new_id := article]> (delete article_id (pending st))) in
              match format_candidate article with
              | Raise e => {| state := st; replies := []; raised := Some e |}
              | Ok text =>
                  {| state := st; replies := [TitleUpdated text new_id];
                     raised := None |}
              end
          end
      | _ => {| state := st; replies := [NoLongerAvailable]; raised := None |}
      end
  end.

(** The candidate of [cmd_test] (lines 153-164). *)
Definition test_article (clk : clock) : dict :=
  [(lit "id",
      VStr (strftime_ymd clk ++ [hyphen]
            ++ slugify (lit "Test Article Pipeline Check")));
   (lit "title",
      VStr (lit "Test Article " ++ [8212] ++ lit " Pipeline Check"));
   (lit "category", VStr (lit "technology"));
   (lit "date", VStr (clk_isoformat clk));
   (lit "excerpt",
      VStr (lit "This is a test article to verify the pipeline is working correctly."));
   (lit "source",
      VDict [(lit "name", VStr (lit "Tech Pulse Test"));
             (lit "url", VStr (lit "https://tech-pulse-delta.vercel.app"))]);
   (lit "image",
      VDict [(lit "url", VStr (lit "/images/articles/test.jpg"));
             (lit "alt", VStr (lit "Test article image"))]);
   (lit "tags", VList [VStr (lit "test"); VStr (lit "pipeline")]);
   (lit "geo",
      VDict [(lit "name", VStr (lit "Zagreb, Croatia"));
             (lit "lat", VFloat (Qmake 45815 1000));
             (lit "lon", VFloat (Qmake 159819 10000));
             (lit "countryCode", VStr (lit "HR"))]);
   (lit "content",
      VStr (lit "## Test Article" ++ [10; 10]
            ++ lit "This is a test article generated by the Tech Pulse pipeline bot to verify that the publishing system works correctly."
            ++ [10; 10] ++ lit "## Verification" ++ [10; 10]
            ++ lit "If you see this on the website after approving, the pipeline is fully operational."))].

(** [cmd_test] (lines 151-174). *)
Definition cmd_test (W : world) (st : stores) : handled :=
  let article := test_article (now W) in
  match subscript (lit "id") article with
  | Ok (VStr article_id) =>
      let st := with_pending st (<[article_id := article]> (pending st)) in
      match format_candidate article with
      | Raise e => {| state := st; replies := []; raised := Some e |}
      | Ok text =>
          {| state := st; replies := [Candidate text article_id];
             raised := None |}
      end
  | Ok _ => {| state := st; replies := []; raised := Some TypeError |}
  | Raise e => {| state := st; replies := []; raised := Some e |}
  end.

(** The loop of [run_scrape] (lines 308-321): the stores, the messages
    sent, and the exception that ended the loop, if one did.  The store is
    declared [dict[str, dict]]; an identifier that is not a string is
    outside the model and ends the loop. *)
Fixpoint send_candidates (clk : clock) (st : stores) (candidates : list dict)
  : stores * list reply * option exn :=
  match candidates with
  | [] => (st, [], None)
  | candidate :: rest =>
      let id := get_none (lit "id") candidate in
      let article_id :=
        if truthy id then Ok id
        else
          i ← make_article_id clk
                (get_or (lit "title") (VStr (lit "untitled")) candidate);
          Ok (VStr i) in
      match article_id with
      | Raise e => (st, [], Some e)
      | Ok (VStr article_id) =>
          let candidate := dict_set (lit "id") (VStr article_id) candidate in
          let st :=
            with_pending st (<[article_id := candidate]> (pending st)) in
          match format_candidate candidate with
          | Raise e => (st, [], Some e)
          | Ok text =>
              let '(st', sent, e) := send_candidates clk st rest in
              (st', Candidate text article_id :: sent, e)
          end
      | Ok _ => (st, [], Some TypeError)
      end
  end.

(** [run_scrape] (lines 289-331): [candidates] is what [get_candidates()]
    returns or raises.  The [except] of line 323 catches every exception
    of the body and reports it. *)
Definition run_scrape (W : world) (st : stores)
    (candidates : result (list dict)) : handled :=
  match candidates with
  | Raise _ => {| state := st; replies := [ScrapeError]; raised := None |}
  | Ok [] => {| state := st; replies := [ScrapeNothing]; raised := None |}
  | Ok candidates =>
      let '(st', sent, e) := send_candidates (now W) st candidates in
      {| state := st';
         replies := ScrapeFound (length candidates) :: sent
                    ++ match e with Some _ => [ScrapeError] | None => [] end;
         raised := None |}
  end.
End Defs.
End bot.

(** * Vocabulary of the properties *)

Section Vocabulary.
Context `{PyRuntime}.
Import scraper.

(** The link of an emitted feed entry. *)
Definition entry_link (e : dict) : pystr :=
  match dict_get (lit "link") e with
  | Some (VStr l) => l
  | _ => []
  end.

Definition entry_links (es : list dict) : list pystr := map entry_link es.

(** The items that a run gets to see from one source, and the links of all
    the items of a run. *)
Definition fetched (parse : value → option (list FeedItem)) (source : dict)
  : list FeedItem :=
  let url := get_or (lit "url") (VStr []) source in
  if truthy url then default [] (parse url) else [].

Definition offered_links (parse : value → option (list FeedItem))
    (sources : list dict) : list pystr :=
  flat_map (λ src, omap item_link (fetched parse src)) sources.

(** What the two loops of [scrape_feeds] keep true of [new_entries] and
    [seen], for the set [seen0] loaded at the start. *)
Definition dedup_inv (seen0 : gset pystr) (st : list dict * gset pystr)
  : Prop :=
  NoDup (entry_links st.1)
  ∧ st.2 = seen0 ∪ list_to_set (entry_links st.1)
  ∧ (∀ l, l ∈ entry_links st.1 → l ∉ seen0).

(** The number of emitted entries that carry the link [l]. *)
Definition emitted (l : pystr) (es : list dict) : nat :=
  length (filter (λ l', l' = l) (entry_links es)).

(** A publish call reports success when it returns a dict whose
    ["success"] is true. *)
Definition reports_success (r : result dict) : bool :=
  match r with
  | Ok res =>
      match dict_get (lit "success") res with
      | Some v => truthy v
      | None => false
      end
  | Raise _ => false
  end.

(** The title under which an approval is recorded. *)
Definition recorded_title (article : dict) : value :=
  get_none (lit "title") article.

(** The outcome of the publish call that approving [article] under
    [article_id] makes; [None] when the handler raises before the call. *)
Definition publish_call (W : publish_remote.world) (article_id : pystr)
    (article : dict) : option publish_remote.outcome :=
  match subscript (lit "title") article,
        bot.article_payload (publish_remote.now W) article_id article with
  | Ok _, Ok payload => Some (publish_remote.publish_to_github W payload)
  | _, _ => None
  end.

Definition approval_succeeds (W : publish_remote.world) (article_id : pystr)
    (article : dict) : bool :=
  match publish_call W article_id article with
  | Some o => reports_success (publish_remote.returned o)
  | None => false
  end.









(** A tag as the rewriter stores it: [str(t).lower().strip()]. *)
Definition clean_tag (t : value) : value :=
  VStr (strip is_space (str_lower (fmt t))).

(** The tags of a parsed response: the list under ["tags"], and the empty
    list when there is none or when it is not a list. *)
Definition raw_tags (res : value) : list value :=
  match res with
  | VDict d =>
      match dict_get (lit "tags") d with
      | Some (VList l) => l
      | _ => []
      end
  | _ => []
  end.

(** No two hyphens in a row. *)
Fixpoint single_hyphens (s : pystr) : bool :=
  match s with
  | a :: (b :: _) as rest =>
      negb (is_hyphen a && is_hyphen b) && single_hyphens rest
  | _ => true
  end.

(** The characters of a sanitized identifier: [a-z], [0-9] and [-]. *)
Definition is_slug_char (c : N) : bool :=
  publish_remote.is_az09 c || is_hyphen c.

(** The path of the document of an article. *)
Definition target_path (category id : pystr) : pystr :=
  lit "content/" ++ category ++ lit "/" ++ id ++ lit ".mdx".
End Vocabulary.

(** * Sample inputs

    Concrete inputs on which the properties are instantiated.  They are run
    with [ascii_runtime]; all their text is ASCII, apart from the title of
    the test article of the bot. *)

Module sample.
Import scraper publish_remote bot.

Definition str (s : string) : value := VStr (lit s).

Definition clk : clock :=
  {| clk_year := 2026; clk_month := 11; clk_day := 3;
     clk_isoformat := lit "2026-11-03T09:30:00+00:00" |}.

Definition answer (status : Z) (body : dict) : result response :=
  Ok {| status_code := status; json := Ok (VDict body); text := [] |}.

Definition created : dict :=
  [(lit "content",
      VDict [(lit "html_url",
              str "https://github.com/studio/tech-pulse/blob/main/content")])].

(** A content store without the document: the look-up answers 404 and the
    write 201. *)
Definition store_without : world :=
  {| GITHUB_TOKEN := lit "ghp_token";
     GITHUB_REPO := lit "studio/tech-pulse";
     GITHUB_BRANCH := lit "main";
     now := clk;
     requests_get := λ _, answer 404 [(lit "message", str "Not Found")];
     requests_put := λ _ _, answer 201 created |}.

(** A content store that holds the document under the token [3f2a]. *)
Definition store_with : world :=
  {| GITHUB_TOKEN := lit "ghp_token";
     GITHUB_REPO := lit "studio/tech-pulse";
     GITHUB_BRANCH := lit "main";
     now := clk;
     requests_get := λ _, answer 200 [(lit "sha", str "3f2a")];
     requests_put := λ _ _, answer 200 created |}.

(** A content store that refuses the write. *)
Definition store_refusing : world :=
  {| GITHUB_TOKEN := lit "ghp_token";
     GITHUB_REPO := lit "studio/tech-pulse";
     GITHUB_BRANCH := lit "main";
     now := clk;
     requests_get := λ _, answer 404 [(lit "message", str "Not Found")];
     requests_put := λ _ _,
       answer 422 [(lit "message", str "Invalid request")] |}.

(** The test article of the bot, pending under its identifier. *)
Definition test_id : pystr := lit "2026-11-03-test-article-pipeline-check".

Definition reviewing : stores :=
  {| pending := {[test_id := test_article clk]};
     published := [];
     editing := ∅ |}.

(** The same, with the admin 7 in an edit session for it. *)
Definition retitling : stores :=
  {| pending := {[test_id := test_article clk]};
     published := [];
     editing := {[7%Z := test_id]} |}.

Definition location (name : string) (lat lon : Q) (cc : string) : value :=
  VDict [(lit "name", str name); (lit "lat", VFloat lat);
         (lit "lon", VFloat lon); (lit "countryCode", str cc)].

Definition known_locations : dict :=
  [(lit "San Francisco",
      location "San Francisco, USA" (Qmake 377749 10000)
        (Qmake (-1224194) 10000) "US");
   (lit "Zagreb",
      location "Zagreb, Croatia" (Qmake 45815 1000) (Qmake 159819 10000)
        "HR")].

Definition company_hq : dict := [(lit "OpenAI", str "San Francisco")].

Definition geo_map : dict :=
  [(lit "known_locations", VDict known_locations);
   (lit "company_hq", VDict company_hq)].

(** A guess that names a known location, with coordinates of its own. *)
Definition guess_zagreb : dict :=
  [(lit "name", str "ZAGREB, Croatia"); (lit "lat", VInt 1);
   (lit "lon", VInt 2); (lit "countryCode", str "XX")].

(** An entry as [scrape_feeds] emits it. *)
Definition entry : dict :=
  [(lit "source_name", str "Example Feed");
   (lit "source_url", str "https://example.com/rss");
   (lit "title", str "Original title");
   (lit "link", str "https://example.com/a");
   (lit "published", str "2026-11-03T08:00:00+00:00");
   (lit "summary", str "Summary")].

Definition answer_with (category : value) (tags : list string) : value :=
  VDict [(lit "category", category);
         (lit "title", str "New title");
         (lit "excerpt", str "Excerpt");
         (lit "content", str "Body");
         (lit "tags", VList (map str tags));
         (lit "geo", VNone)].

(** The response of the scenario of section 8, with no location. *)
Definition answer_bogus : value :=
  answer_with (str "bogus") ["A"; "B"; "C"; "D"; "E"; "F"; "G"; "H"]%string.

(** A response whose category is [null]. *)
Definition answer_null_category : value :=
  answer_with VNone ["ai"; "chips"; "research"]%string.

(** A response with a single tag. *)
Definition answer_one_tag : value :=
  answer_with (str "ai") ["A"]%string.

Definition api_key : pystr := lit "sk-key".

(** An article with a category outside the fixed set and no identifier. *)
Definition article_bogus : dict :=
  [(lit "title", str "Hello World");
   (lit "category", str "bogus");
   (lit "excerpt", str "Excerpt")].

(** An article without category, as the command line can pass it. *)
Definition article_without_category : dict :=
  [(lit "title", str "Hello World"); (lit "excerpt", str "Excerpt")].

Definition item (link : string) : FeedItem :=
  {| item_link := Some (lit link);
     item_title := Some (str "Title");
     item_summary := Some (lit "Summary");
     item_description := None;
     item_published_parsed := None;
     item_updated_parsed := None |}.

Definition sources : list dict :=
  [[(lit "name", str "One"); (lit "url", str "https://one.example/rss")];
   [(lit "name", str "Two"); (lit "url", str "https://two.example/rss")]].

(** Two feeds that carry the same link. *)
Definition parse (url : value) : option (list FeedItem) :=
  if eq_str url (lit "https://one.example/rss")
  then Some [item "https://example.com/a"; item "https://example.com/old"]
  else if eq_str url (lit "https://two.example/rss")
  then Some [item "https://example.com/a"]
  else None.

Definition seen : gset pystr := {[lit "https://example.com/old"]}.
End sample.

(** * The rest of the code

    The functions of the four files that the handlers and the publisher
    above do not go through: the buttons of the bot, the maintenance
    commands of the remote publisher, and the local publisher. *)

(** [s.endswith(suffix)]. *)
Definition ends_with (suffix s : pystr) : bool :=
  is_prefix (rev suffix) (rev s).

(** ** bot.py: the buttons *)

Module bot_controls.

(** A button: its label and its [callback_data]. *)
Record button : Type := {
  label : pystr;
  callback_data : pystr;
}.

(** [make_buttons] (lines 106-116): the rows of the keyboard. *)
Definition make_buttons (article_id : pystr) : list (list button) :=
  [[{| label := [9989] ++ lit " Approve";
       callback_data := lit "approve_" ++ article_id |};
    {| label := [10060] ++ lit " Reject";
       callback_data := lit "reject_" ++ article_id |}];
   [{| label := [9999; 65039] ++ lit " Edit Title";
       callback_data := lit "edit_" ++ article_id |}]].

End bot_controls.

(** ** publish_remote.py: deleting and listing *)

Module publish_remote_admin.
Section Defs.
Context `{PyRuntime}.
Import publish_remote.

(** What a call of [delete_article] leaves behind: the URLs looked up, the
    [DELETE] requests sent with their bodies, and the dict returned or the
    exception raised. *)
Record deletion : Type := {
  looked_up : list pystr;
  deleted : list (pystr * dict);
  answer : result dict;
}.

(** [delete_article] (lines 187-208).  [requests_delete url payload] is the
    answer to [requests.delete(url, headers=..., json=payload)]. *)
Definition delete_article (W : world)
    (requests_delete : pystr → dict → result response)
    (category article_id : pystr) : deletion :=
  let file_path :=
    lit "content/" ++ category ++ lit "/" ++ article_id ++ lit ".mdx" in
  let url := contents_url W file_path in
  match get_existing_file_sha W file_path with
  | Raise e => {| looked_up := [url]; deleted := []; answer := Raise e |}
  | Ok sha =>
      if negb (truthy sha) then
        {| looked_up := [url]; deleted := [];
           answer :=
             Ok [(lit "success", VBool false);
                 (lit "message",
                    VStr (lit "Article not found: " ++ file_path))] |}
      else
        let payload :=
          [(lit "message", VStr (lit "Remove article: " ++ article_id));
           (lit "sha", sha);
           (lit "branch", VStr (GITHUB_BRANCH W))] in
        match requests_delete url payload with
        | Raise e =>
            {| looked_up := [url]; deleted := [(url, payload)];
               answer := Raise e |}
        | Ok resp =>
            {| looked_up := [url]; deleted := [(url, payload)];
               answer :=
                 if (status_code resp =? 200)%Z then
                   Ok [(lit "success", VBool true);
                       (lit "message", VStr (lit "Deleted: " ++ file_path))]
                 else
                   body ← json resp;
                   error ← obj_get (lit "message")
                             (VStr (take 200 (text resp))) body;
                   Ok [(lit "success", VBool false);
                       (lit "message",
                          VStr (lit "Delete failed: " ++ fmt error))] |}
        end
  end.

(** The inner loop of [list_articles] (lines 218-220) over the items of one
    listing. *)
Fixpoint list_items (cat : pystr) (items : list value)
  : result (list pystr) :=
  match items with
  | [] => Ok []
  | item :: rest =>
      name ← obj_subscript (lit "name") item;
      name ← as_str name;
      found ← list_items cat rest;
      if ends_with (lit ".mdx") name
      then Ok ((cat ++ lit "/" ++ name) :: found)
      else Ok found
  end.

(** The body of the outer loop (lines 214-220) for one category. *)
Definition list_category (W : world) (cat : pystr) : result (list pystr) :=
  resp ← requests_get W (GITHUB_API ++ lit "/repos/" ++ GITHUB_REPO W
                          ++ lit "/contents/content/" ++ cat);
  if (status_code resp =? 200)%Z then
    body ← json resp;
    items ← iterate body;
    list_items cat items
  else Ok [].

(** [list_articles] (lines 211-221). *)
Definition list_articles (W : world) : result (list pystr) :=
  found ← mapM (list_category W) VALID_CATEGORIES;
  Ok (concat found).
End Defs.
End publish_remote_admin.

(** ** publish.py *)

Module publish.
Section Defs.
Context `{PyRuntime}.

(** The commands that [publish_article] runs with [subprocess.run]. *)
Inductive command : Type :=
  | AddArticle
  | GitAdd
  | GitCommit (message : pystr)
  | GitPush (remote branch : pystr).

(** The configuration of the module and the machine that it runs on:
    [run c] is the return code of the command, or [None] when
    [subprocess.run] raises (a timeout, a missing program); [dump_ok] says
    whether [json.dump] to the temporary file goes through. *)
Record machine : Type := {
  project_dir_exists : bool;
  GIT_AUTO_PUSH : bool;
  GIT_REMOTE : pystr;
  GIT_BRANCH : pystr;
  dump_ok : bool;
  run : command → option Z;
}.

(** What a call of [publish_article] leaves behind: the commands run, in
    order; whether the temporary file was created and whether [os.unlink]
    was called on it; and the value returned. *)
Record published_locally : Type := {
  ran : list command;
  tmp_created : bool;
  tmp_unlinked : bool;
  returned : bool;
}.

Definition finished (cmds : list command) (ok : bool) : published_locally :=
  {| ran := cmds; tmp_created := true; tmp_unlinked := true; returned := ok |}.

(** [publish_article] (lines 30-124). *)
Definition publish_article (M : machine) (article_data : dict) (push : bool)
  : published_locally :=
  if negb (project_dir_exists M) then
    {| ran := []; tmp_created := false; tmp_unlinked := false;
       returned := false |}
  else if negb (dump_ok M) then finished [] false
  else
    match run M AddArticle with
    | None => finished [AddArticle] false
    | Some returncode =>
        if negb (returncode =? 0)%Z then finished [AddArticle] false
        else if push && GIT_AUTO_PUSH M then
          match slice_to 60 (get_or (lit "title") (VStr (lit "article"))
                               article_data) with
          | Raise _ => finished [AddArticle] false
          | Ok title_short =>
              let commit :=
                GitCommit (lit "Add article: " ++ fmt title_short) in
              let push_cmd := GitPush (GIT_REMOTE M) (GIT_BRANCH M) in
              match run M GitAdd with
              | None => finished [AddArticle; GitAdd] false
              | Some _ =>
                  match run M commit with
                  | None => finished [AddArticle; GitAdd; commit] false
                  | Some _ =>
                      match run M push_cmd with
                      | None =>
                          finished [AddArticle; GitAdd; commit; push_cmd]
                            false
                      | Some _ =>
                          finished [AddArticle; GitAdd; commit; push_cmd]
                            true
                      end
                  end
              end
          end
        else finished [AddArticle] true
    end.
End Defs.
End publish.

(** * Vocabulary of the further properties *)

Section FurtherVocabulary.
Context `{PyRuntime}.

(** An entry as the feed ingester emits it: the six fields in their order,
    a link that is not empty and a summary of at most 2000 characters. *)
Definition emitted_entry (e : dict) : Prop :=
  ∃ name url title link published summary,
    e = [(lit "source_name", name); (lit "source_url", url);
         (lit "title", title); (lit "link", VStr link);
         (lit "published", VStr published); (lit "summary", VStr summary)]
    ∧ link ≠ [] ∧ (length summary ≤ 2000)%nat.

(** A location as the geo resolver returns it: the four fields in their
    order. *)
Definition georef (g : value) : Prop :=
  ∃ name lat lon cc,
    g = VDict [(lit "name", name); (lit "lat", lat); (lit "lon", lon);
               (lit "countryCode", cc)].

(** A string or a list of at most [n] elements. *)
Definition clipped (n : nat) (v : value) : Prop :=
  (∃ s, v = VStr s ∧ (length s ≤ n)%nat)
  ∨ (∃ l, v = VList l ∧ (length l ≤ n)%nat).

Definition is_string (v : value) : Prop := ∃ s, v = VStr s.

(** A candidate as the rewriter makes it from an entry: the ten fields in
    their order, the first four from the entry. *)
Definition rewritten (entry cand : dict) : Prop :=
  ∃ category title excerpt content tags geo,
    cand = [(lit "source_name", get_none (lit "source_name") entry);
            (lit "source_url", get_none (lit "source_url") entry);
            (lit "original_link", get_none (lit "link") entry);
            (lit "published", get_none (lit "published") entry);
            (lit "category", VStr category);
            (lit "title", title);
            (lit "excerpt", excerpt);
            (lit "content", content);
            (lit "tags", VList tags);
            (lit "geo", geo)]
    ∧ category ∈ scraper.VALID_CATEGORIES
    ∧ clipped 250 excerpt
    ∧ (length tags ≤ 7)%nat
    ∧ Forall is_string tags
    ∧ (geo = VNone ∨ georef geo).

End FurtherVocabulary.

(** * Vocabulary of the front end *)

Section FrontEndVocabulary.
Context `{PyRuntime}.



(** A character that a slug can hold: a word character other than the
    underscore, or a hyphen; never white space. *)
Definition slug_like (c : N) : Prop :=
  is_space c = false ∧ c ≠ underscore
  ∧ (bot.is_word c = true ∨ c = hyphen).
End FrontEndVocabulary.


(** * Vocabulary of the local publisher *)

Section LocalVocabulary.
Context `{PyRuntime}.
Import publish.

(** The git commands of a call for the title [title_short]. *)
Definition git_commands (M : machine) (title_short : value) : list command :=
  [GitAdd; GitCommit (lit "Add article: " ++ fmt title_short);
   GitPush (GIT_REMOTE M) (GIT_BRANCH M)].
End LocalVocabulary.


(** * Vocabulary of the document generator *)

Section DocumentVocabulary.
Context `{PyRuntime}.

Definition is_dict (v : value) : Prop := ∃ d, v = VDict d.

(** A value that a [for] can go through: a list, a string or a dict. *)
Definition iterable (v : value) : Prop :=
  match v with
  | VList _ | VStr _ | VDict _ => True
  | _ => False
  end.

(** A location that the generator can print: a falsy one, for which it
    prints the default, or a dict that has no latitude or has a
    ["lon"]. *)
Definition geo_printable (g : value) : Prop :=
  truthy g = false
  ∨ ∃ d, g = VDict d
         ∧ (get_or (lit "lat") VNone d = VNone
            ∨ is_Some (dict_get (lit "lon") d)).

(** An article from which a document can be generated. *)
Definition publishable (data : dict) : Prop :=
  is_Some (dict_get (lit "id") data)
  ∧ is_string (get_none (lit "title") data)
  ∧ is_Some (dict_get (lit "category") data)
  ∧ is_Some (dict_get (lit "date") data)
  ∧ is_string (get_none (lit "excerpt") data)
  ∧ is_dict (get_or (lit "source") (VDict []) data)
  ∧ (∃ d, get_or (lit "image") (VDict []) data = VDict d
          ∧ is_string (get_or (lit "alt") (VStr (lit "Article image")) d))
  ∧ iterable (get_or (lit "tags") (VList []) data)
  ∧ geo_printable (get_none (lit "geo") data)
  ∧ is_string (get_or (lit "content") (VStr []) data).
End DocumentVocabulary.


(** * Further sample inputs *)

Module sample_further.
Import scraper publish_remote bot sample.

(** A source whose feed cannot be fetched. *)
Definition source_down : dict :=
  [(lit "name", str "Down"); (lit "url", str "https://down.example/rss")].

(** A response with a location that names a known one. *)
Definition answer_located : value :=
  VDict [(lit "category", str "ai");
         (lit "title", str "New title");
         (lit "excerpt", str "Excerpt");
         (lit "content", str "Body");
         (lit "tags", VList (map str ["Chips"; "AI"]%string));
         (lit "geo", VDict guess_zagreb)].

(** The candidates that the rewriter makes of [entry] with the responses
    [answer_bogus] and [answer_located]. *)
Definition candidate_of (category : string) (tags : list string)
    (geo : value) : dict :=
  [(lit "source_name", str "Example Feed");
   (lit "source_url", str "https://example.com/rss");
   (lit "original_link", str "https://example.com/a");
   (lit "published", str "2026-11-03T08:00:00+00:00");
   (lit "category", str category);
   (lit "title", str "New title");
   (lit "excerpt", str "Excerpt");
   (lit "content", str "Body");
   (lit "tags", VList (map str tags));
   (lit "geo", geo)].

Definition candidate_unlocated : dict :=
  candidate_of "technology" ["a"; "b"; "c"; "d"; "e"; "f"; "g"]%string VNone.

Definition candidate_located : dict :=
  candidate_of "ai" ["chips"; "ai"]%string
    (location "Zagreb, Croatia" (Qmake 45815 1000) (Qmake 159819 10000) "HR").

Definition candidate_id : pystr := lit "2026-11-03-new-title".


(** The admin 7 in an edit session for a candidate that is gone. *)
Definition orphaned : stores :=
  {| pending := {[test_id := test_article clk]};
     published := [];
     editing := {[7%Z := lit "2026-11-03-gone"]} |}.

(** What [publish_to_github] returns for [article_bogus] on
    [store_without]. *)
Definition report_created : dict :=
  [(lit "success", VBool true);
   (lit "message", str "Published: Hello World");
   (lit "url",
      str "https://github.com/studio/tech-pulse/blob/main/content");
   (lit "file_path",
      str "content/technology/2026-11-03-hello-world.mdx")].

(** A content store in which every category lists one article and one
    other file. *)
Definition store_listing : world :=
  {| GITHUB_TOKEN := lit "ghp_token";
     GITHUB_REPO := lit "studio/tech-pulse";
     GITHUB_BRANCH := lit "main";
     now := clk;
     requests_get := λ _,
       Ok {| status_code := 200;
             json := Ok (VList [VDict [(lit "name", str "hello.mdx")];
                                VDict [(lit "name", str "README.txt")]]);
             text := [] |};
     requests_put := λ _ _, answer 201 created |}.

(** A content API that answers every [DELETE] with 200. *)
Definition requests_delete_ok (url : pystr) (payload : dict)
  : result response := answer 200 [].

Definition listing : list pystr :=
  map (λ cat, cat ++ lit "/hello.mdx") publish_remote.VALID_CATEGORIES.
End sample_further.


(** * Properties *)

(** A closed goal that evaluation decides. *)
Ltac by_running := vm_compute; reflexivity.

(** Case analysis on the first computation of every bind of the goal, left
    to right; the cases in which a computation raises are closed when the
    hypothesis at hand says that the whole returns. *)
Ltac bind_cases :=
  repeat match goal with
         | |- context [?m ≫= _] =>
             match m with
             | context [_ ≫= _] => fail 1
             | _ => destruct m eqn:?; simpl; try discriminate
             end
         end.

Lemma str_eqb_eq (a b : pystr) : str_eqb a b = true ↔ a = b.
Proof.
  revert b. induction a as [|x a IH]; intros [|y b]; simpl; try easy.
  rewrite andb_true_iff, N.eqb_eq, IH. split.
  - intros [-> ->]. reflexivity.
  - intros [= -> ->]. auto.
Qed.

Lemma str_eqb_refl (a : pystr) : str_eqb a a = true.
Proof. apply str_eqb_eq. reflexivity. Qed.

Lemma str_eqb_neq (a b : pystr) : str_eqb a b = false ↔ a ≠ b.
Proof.
  rewrite <- str_eqb_eq. destruct (str_eqb a b); split; congruence.
Qed.

Lemma dict_get_set_eq (k : pystr) v (d : dict) :
  dict_get k (dict_set k v d) = Some v.
Proof.
  induction d as [|[k' v'] d IH]; simpl.
  - by rewrite str_eqb_refl.
  - destruct (str_eqb k k') eqn:E; simpl; rewrite ?str_eqb_refl, ?E; done.
Qed.

Lemma dict_get_set_ne (k k' : pystr) v (d : dict) :
  k ≠ k' → dict_get k' (dict_set k v d) = dict_get k' d.
Proof.
  intros Hne. induction d as [|[k0 v0] d IH]; simpl.
  - apply str_eqb_neq in Hne. destruct (str_eqb k' k) eqn:E; [|done].
    apply str_eqb_eq in E. subst. by rewrite str_eqb_refl in Hne.
  - destruct (str_eqb k k0) eqn:E; simpl.
    + apply str_eqb_eq in E. subst k0.
      destruct (str_eqb k' k) eqn:E'; [|done].
      apply str_eqb_eq in E'. congruence.
    + by rewrite IH.
Qed.


(** ** Strings *)

Lemma drop_while_suffix p (s : pystr) : ∃ pre, s = pre ++ drop_while p s.
Proof.
  induction s as [|c s [pre IH]]; simpl; [by exists []|].
  destruct (p c); [|by exists []].
  exists (c :: pre). simpl. by rewrite <- IH.
Qed.

Lemma drop_while_head p (s : pystr) c :
  head (drop_while p s) = Some c → p c = false.
Proof.
  induction s as [|a s IH]; simpl; [done|].
  destruct (p a) eqn:E; [done|]. simpl. by intros [= <-].
Qed.

Lemma rstrip_prefix p (s : pystr) : ∃ suf, s = rstrip p s ++ suf.
Proof.
  unfold rstrip. destruct (drop_while_suffix p (rev s)) as [pre Hpre].
  exists (rev pre). rewrite <- rev_app_distr, <- Hpre. by rewrite rev_involutive.
Qed.

Lemma rstrip_last p (s : pystr) c : last (rstrip p s) = Some c → p c = false.
Proof.
  unfold rstrip. rewrite <- (reverse_involutive (rev _)).
  rewrite last_reverse. fold (@reverse N). unfold reverse at 1.
  rewrite <- rev_alt, rev_involutive. apply drop_while_head.
Qed.

Lemma Forall_app_l {A} (P : A → Prop) (l1 l2 : list A) :
  Forall P (l1 ++ l2) → Forall P l1.
Proof. rewrite Forall_app. tauto. Qed.

Lemma Forall_app_r {A} (P : A → Prop) (l1 l2 : list A) :
  Forall P (l1 ++ l2) → Forall P l2.
Proof. rewrite Forall_app. tauto. Qed.

Lemma Forall_drop_while (P : N → Prop) p (s : pystr) :
  Forall P s → Forall P (drop_while p s).
Proof.
  destruct (drop_while_suffix p s) as [pre Hpre]. rewrite Hpre at 1.
  apply Forall_app_r.
Qed.

Lemma Forall_rstrip (P : N → Prop) p (s : pystr) :
  Forall P s → Forall P (rstrip p s).
Proof.
  destruct (rstrip_prefix p s) as [suf Hsuf]. rewrite Hsuf at 1.
  apply Forall_app_l.
Qed.

Lemma Forall_strip (P : N → Prop) p (s : pystr) :
  Forall P s → Forall P (strip p s).
Proof. intros Hs. by apply Forall_rstrip, Forall_drop_while. Qed.

Lemma Forall_sub_runs (P : N → Prop) p rep b (s : pystr) :
  Forall P rep → (∀ c, p c = false → P c) →
  Forall P (sub_runs_from p rep b s).
Proof.
  intros Hrep Hp. revert b. induction s as [|c s IH]; intros b; simpl; [done|].
  destruct (p c) eqn:E.
  - destruct b; [apply IH|]. apply Forall_app. split; [done|apply IH].
  - constructor; [by apply Hp|apply IH].
Qed.

Section ScraperProps.
Context `{PyRuntime}.
Import scraper.

Lemma scrape_entry_step name url now st entry :
  let link := default [] (item_link entry) in
  scrape_entry name url now st entry = st
  ∨ ((link ∉ st.2)
     ∧ entry_links (scrape_entry name url now st entry).1
       = entry_links st.1 ++ [link]
     ∧ (scrape_entry name url now st entry).2 = {[link]} ∪ st.2).
Proof.
  intros link. unfold scrape_entry. fold link.
  destruct (negb (truthy (VStr link))); simpl; [by left|].
  case_bool_decide as Hin; [by left|]. right.
  split; [done|]. split; [|done].
  simpl. unfold entry_links. rewrite map_app. reflexivity.
Qed.

Lemma scrape_entry_inv seen0 name url now st entry :
  dedup_inv seen0 st → dedup_inv seen0 (scrape_entry name url now st entry).
Proof.
  intros (Hnd & Hseen & Hfresh).
  destruct (scrape_entry_step name url now st entry) as [->|(Hin & Hl & Hs)];
    [done|].
  unfold dedup_inv. rewrite Hl, Hs. clear Hl Hs. rewrite Hseen in *.
  split; [|split].
  - apply NoDup_app. split; [done|]. split; [|apply NoDup_singleton].
    intros l Hl ->%list_elem_of_singleton. set_solver.
  - rewrite list_to_set_app_L. set_solver.
  - intros l [Hl| ->%list_elem_of_singleton]%elem_of_app; set_solver.
Qed.

Lemma scrape_entries_inv seen0 name url now entries st :
  dedup_inv seen0 st →
  dedup_inv seen0 (foldl (scrape_entry name url now) st entries).
Proof.
  revert st. induction entries as [|e es IH]; intros st Hst; simpl; [done|].
  apply IH, scrape_entry_inv, Hst.
Qed.

Lemma scrape_source_inv seen0 parse now st source :
  dedup_inv seen0 st → dedup_inv seen0 (scrape_source parse now st source).
Proof.
  intros Hst. unfold scrape_source.
  destruct (negb _); [done|]. destruct (parse _); [|done].
  by apply scrape_entries_inv.
Qed.

Lemma scrape_feeds_inv sources seen0 parse now :
  dedup_inv seen0 (scrape_feeds sources seen0 parse now).
Proof.
  unfold scrape_feeds.
  assert (dedup_inv seen0 ([], seen0)) as Hst.
  { split; [constructor|]. split; [set_solver|]. intros l Hl. inversion Hl. }
  revert Hst. generalize (([], seen0) : list dict * gset pystr).
  induction sources as [|src srcs IH]; intros st Hst; simpl; [done|].
  apply IH, scrape_source_inv, Hst.
Qed.

Lemma scrape_entry_mono name url now st entry :
  st.2 ⊆ (scrape_entry name url now st entry).2.
Proof.
  destruct (scrape_entry_step name url now st entry) as [->|(_ & _ & ->)];
    set_solver.
Qed.

Lemma scrape_entry_sees name url now st entry l :
  item_link entry = Some l → l ≠ [] →
  l ∈ (scrape_entry name url now st entry).2.
Proof.
  intros Hl Hne. unfold scrape_entry. rewrite Hl. simpl.
  apply str_eqb_neq in Hne. rewrite Hne. simpl.
  case_bool_decide; simpl; set_solver.
Qed.

Lemma scrape_entries_mono name url now entries st :
  st.2 ⊆ (foldl (scrape_entry name url now) st entries).2.
Proof.
  revert st. induction entries as [|e es IH]; intros st; simpl; [done|].
  etrans; [apply (scrape_entry_mono name url now st e)|apply IH].
Qed.

Lemma scrape_entries_sees name url now entries st l :
  Some l ∈ map item_link entries → l ≠ [] →
  l ∈ (foldl (scrape_entry name url now) st entries).2.
Proof.
  revert st. induction entries as [|e es IH]; intros st Hin Hne; simpl in *.
  - inversion Hin.
  - apply elem_of_cons in Hin as [Hl|Hin]; [|by apply IH].
    apply scrape_entries_mono. by apply scrape_entry_sees.
Qed.

Lemma scrape_source_mono parse now st source :
  st.2 ⊆ (scrape_source parse now st source).2.
Proof.
  unfold scrape_source. destruct (negb _); [done|].
  destruct (parse _); [|done]. apply scrape_entries_mono.
Qed.

Lemma scrape_source_sees parse now st source l :
  Some l ∈ map item_link (fetched parse source) → l ≠ [] →
  l ∈ (scrape_source parse now st source).2.
Proof.
  unfold fetched, scrape_source.
  destruct (truthy _); simpl; [|by inversion 1].
  destruct (parse _); simpl; [|by inversion 1].
  apply scrape_entries_sees.
Qed.

Lemma scrape_sources_mono parse now sources st :
  st.2 ⊆ (foldl (scrape_source parse now) st sources).2.
Proof.
  revert st. induction sources as [|src srcs IH]; intros st; simpl; [done|].
  etrans; [apply (scrape_source_mono parse now st src)|apply IH].
Qed.

Lemma scrape_feeds_sees sources seen0 parse now l :
  l ∈ offered_links parse sources → l ≠ [] →
  l ∈ (scrape_feeds sources seen0 parse now).2.
Proof.
  unfold scrape_feeds, offered_links.
  generalize (([], seen0) : list dict * gset pystr).
  induction sources as [|src srcs IH]; intros st Hin Hne; simpl in *.
  - inversion Hin.
  - apply elem_of_app in Hin as [Hin|Hin]; [|by apply IH].
    apply scrape_sources_mono. apply scrape_source_sees; [|done].
    apply list_elem_of_omap in Hin as (e & He & Hl).
    apply list_elem_of_fmap. eauto.
Qed.

Lemma filter_eq_absent (l : pystr) (ls : list pystr) :
  l ∉ ls → filter (λ l', l' = l) ls = [].
Proof.
  induction ls as [|x ls IH]; intros Hnin; [done|].
  rewrite filter_cons. case_decide as Heq; [set_solver|].
  apply IH. set_solver.
Qed.

Lemma emitted_le_1 l es : NoDup (entry_links es) → (emitted l es ≤ 1)%nat.
Proof.
  unfold emitted. induction 1 as [|l' ls Hnin Hnd IH]; simpl; [lia|].
  rewrite filter_cons. case_decide as Heq; simpl; [|lia]. subst l'.
  rewrite filter_eq_absent by done. simpl; lia.
Qed.

Lemma emitted_pos l es : l ∈ entry_links es → (1 ≤ emitted l es)%nat.
Proof.
  unfold emitted. intros Hin.
  assert (l ∈ filter (λ l', l' = l) (entry_links es)) as Hf
    by (apply list_elem_of_filter; done).
  destruct (filter _ _); [inversion Hf|simpl; lia].
Qed.

Lemma emitted_0 l es : l ∉ entry_links es → emitted l es = 0%nat.
Proof.
  unfold emitted. intros Hnin. by rewrite filter_eq_absent.
Qed.

(** C2. One ingestion run emits at most one entry per link and none for a
    link of the seen set loaded at the start; a link that the run is
    offered and that is new is emitted exactly once, however many sources
    carry it; and the set handed to [save_seen] is the loaded set together
    with the emitted links, hence a superset of the loaded set. *)
Theorem scrape_feeds_dedup sources seen0 parse now :
  let new_entries := (scrape_feeds sources seen0 parse now).1 in
  let seen := (scrape_feeds sources seen0 parse now).2 in
  (∀ l, (emitted l new_entries ≤ 1)%nat)
  ∧ (∀ l, l ∈ seen0 → emitted l new_entries = 0%nat)
  ∧ (∀ l, l ∈ offered_links parse sources → l ≠ [] → l ∉ seen0 →
       emitted l new_entries = 1%nat)
  ∧ seen = seen0 ∪ list_to_set (entry_links new_entries)
  ∧ seen0 ⊆ seen.
Proof.
  intros new_entries seen.
  destruct (scrape_feeds_inv sources seen0 parse now)
    as (Hnd & Hseen & Hfresh).
  fold new_entries seen in Hnd, Hseen, Hfresh.
  split; [|split; [|split; [|split]]].
  - intros l. by apply emitted_le_1.
  - intros l Hl. apply emitted_0. intros Hin. by apply (Hfresh l).
  - intros l Hoff Hne Hnew.
    pose proof (scrape_feeds_sees sources seen0 parse now l Hoff Hne) as Hin.
    fold seen in Hin. rewrite Hseen in Hin.
    assert (l ∈ entry_links new_entries) as Hem by set_solver.
    pose proof (emitted_le_1 l new_entries Hnd).
    pose proof (emitted_pos l new_entries Hem). lia.
  - done.
  - rewrite Hseen. set_solver.
Qed.






Lemma in_strs_elem (s : pystr) (l : list pystr) :
  in_strs (VStr s) l = true ↔ s ∈ l.
Proof.
  unfold in_strs. rewrite existsb_exists. split.
  - intros (x & Hin & Heq). simpl in Heq. apply str_eqb_eq in Heq.
    subst. by apply list_elem_of_In.
  - intros Hin. exists s. split; [by apply list_elem_of_In|].
    simpl. apply str_eqb_refl.
Qed.

Lemma validate_category_valid res c :
  validate_category res = Ok c → c ∈ VALID_CATEGORIES.
Proof.
  unfold validate_category.
  destruct (obj_get _ _ res) as [[| | | |s| |]|]; simpl; try discriminate.
  destruct (in_strs (VStr (str_lower s)) VALID_CATEGORIES) eqn:E; simpl;
    intros [= <-].
  - by apply in_strs_elem.
  - by apply in_strs_elem.
Qed.

Lemma validate_tags_eq res tags :
  validate_tags res = Ok tags → tags = map clean_tag (take 7 (raw_tags res)).
Proof.
  unfold validate_tags, raw_tags, obj_get, get_or.
  destruct res as [| | | | | |d]; simpl; try discriminate.
  intros [= <-]. by destruct (dict_get (lit "tags") d) as [[]|].
Qed.

(** What a candidate that [process_article] returns is made of. *)
Lemma process_article_some key response entry geo_map cand :
  process_article key response entry geo_map = Ok (Some cand) →
  ∃ res category tags geo,
    response = Ok res
    ∧ validate_category res = Ok category
    ∧ validate_tags res = Ok tags
    ∧ (geo_raw ← obj_get (lit "geo") VNone res; _resolve_geo geo_raw geo_map)
      = Ok geo
    ∧ dict_get (lit "category") cand = Some (VStr category)
    ∧ dict_get (lit "tags") cand = Some (VList tags)
    ∧ dict_get (lit "geo") cand = Some geo.
Proof.
  unfold process_article.
  destruct (negb _); [discriminate|].
  bind_cases. intros [= <-].
  match goal with
  | Hc : validate_category ?r = Ok ?c, Ht : validate_tags _ = Ok ?t,
    Hg : _resolve_geo _ _ = Ok ?g, Ho : obj_get (lit "geo") _ _ = _ |- _ =>
      exists r, c, t, g; rewrite Ho
  end.
  repeat split; done.
Qed.
End ScraperProps.

Section BotProps.
Context `{PyRuntime}.
Import publish_remote bot.

Lemma split_approve (article_id : pystr) :
  split_once underscore (lit "approve_" ++ article_id)
  = Some (lit "approve", article_id).
Proof. reflexivity. Qed.

Lemma handle_callback_approve W st article_id article from_user :
  pending st !! article_id = Some article → article ≠ [] →
  handle_callback W st (lit "approve_" ++ article_id) from_user
  = approve W st article_id article.
Proof.
  intros Hp Hne. unfold handle_callback.
  change (negb (truthy (VStr (lit "approve_" ++ article_id)))) with false.
  cbv iota. rewrite split_approve, Hp.
  destruct article as [|kv article]; [done|]. reflexivity.
Qed.

(** C1. Approving a pending candidate removes it from the store and
    appends its title to the published history exactly when the publish
    call reports success; on every other outcome of the call, a reported
    failure or an exception, the stores are as they were. *)
Theorem approve_commits_iff_success W st article_id article from_user :
  pending st !! article_id = Some article → article ≠ [] →
  let after := state (handle_callback W st (lit "approve_" ++ article_id)
                        from_user) in
  (approval_succeeds W article_id article = true →
     pending after = delete article_id (pending st)
     ∧ published after = published st ++ [recorded_title article]
     ∧ editing after = editing st)
  ∧ (approval_succeeds W article_id article = false → after = st).
Proof.
  intros Hp Hne after. subst after.
  rewrite (handle_callback_approve _ _ _ _ _ Hp Hne).
  unfold approval_succeeds, publish_call, approve, recorded_title, get_none,
    get_or, subscript.
  destruct (dict_get (lit "title") article) as [title|]; simpl;
    [|split; [discriminate|done]].
  destruct (article_payload (now W) article_id article) as [payload|e]; simpl;
    [|split; [discriminate|done]].
  destruct (returned (publish_to_github W payload)) as [res|e]; simpl;
    [|split; [discriminate|done]].
  destruct (dict_get (lit "success") res) as [success|]; simpl;
    [|split; [discriminate|done]].
  destruct (truthy success); simpl; [split; [done|discriminate]|].
  split; [discriminate|]. intros _.
  by destruct (dict_get (lit "message") res).
Qed.
End BotProps.

Section PublisherProps.
Context `{PyRuntime}.
Import publish_remote.

Lemma single_hyphens_app (a b : pystr) :
  single_hyphens (a ++ b) = true →
  single_hyphens a = true ∧ single_hyphens b = true.
Proof.
  induction a as [|x a IH]; simpl; [done|].
  destruct a as [|y a]; simpl in *.
  - destruct b; [done|]. rewrite andb_true_iff. tauto.
  - rewrite !andb_true_iff. intros [Hxy Hrest].
    destruct (IH Hrest) as [Ha Hb]. done.
Qed.

Lemma single_hyphens_sub_runs p b (s : pystr) :
  p hyphen = true →
  single_hyphens (sub_runs_from p [hyphen] b s) = true
  ∧ (b = true → head (sub_runs_from p [hyphen] b s) ≠ Some hyphen).
Proof.
  intros Hp. revert b. induction s as [|c s IH]; intros b; simpl; [done|].
  destruct (p c) eqn:E.
  - destruct b; [apply IH|]. split; [|done].
    destruct (IH true) as [Hs Hh].
    destruct (sub_runs_from p [hyphen] true s) as [|d out] eqn:Eo; [done|].
    change (negb (is_hyphen hyphen && is_hyphen d)
            && single_hyphens (d :: out) = true).
    rewrite Hs, andb_true_r.
    destruct (is_hyphen d) eqn:Ed; [|by rewrite andb_false_r].
    apply N.eqb_eq in Ed. subst d. by destruct Hh.
  - assert (is_hyphen c = false) as Hc.
    { destruct (is_hyphen c) eqn:Ec; [|done].
      apply N.eqb_eq in Ec. congruence. }
    split.
    + destruct (IH false) as [Hs _].
      destruct (sub_runs_from p [hyphen] false s) as [|d out]; [done|].
      change (negb (is_hyphen c && is_hyphen d)
              && single_hyphens (d :: out) = true).
      by rewrite Hc, Hs.
    + intros _ [= ->]. done.
Qed.

Lemma slug_char_ascii c : is_slug_char c = true → is_ascii c = true.
Proof.
  unfold is_slug_char, is_az09, is_lower_az, is_digit, is_hyphen, in_range,
    is_ascii, hyphen.
  rewrite !orb_true_iff, !andb_true_iff, !N.leb_le, N.eqb_eq, N.ltb_lt. lia.
Qed.

Lemma digit_char_slug n : is_slug_char (digit_char n) = true.
Proof.
  unfold is_slug_char, is_az09, is_digit, in_range, digit_char.
  assert (n mod 10 < 10) as Hm by (by apply N.mod_lt).
  revert Hm. generalize (n mod 10). intros m Hm.
  rewrite !orb_true_iff, !andb_true_iff, !N.leb_le. left. right. lia.
Qed.

Lemma strftime_slug clk :
  Forall (λ c, is_slug_char c = true) (strftime_ymd clk).
Proof.
  unfold strftime_ymd. repeat (apply Forall_app; split);
    repeat constructor; apply digit_char_slug.
Qed.

(** The slug of a title: characters, hyphens and length. *)
Lemma title_slug_shape title :
  Forall (λ c, is_slug_char c = true) (title_slug title)
  ∧ (length (title_slug title) ≤ 60)%nat
  ∧ single_hyphens (title_slug title) = true
  ∧ last (title_slug title) ≠ Some hyphen.
Proof.
  unfold title_slug.
  set (folded := ascii_fold (str_lower title)).
  set (subbed := sub_runs (λ c, negb (is_az09 c)) [hyphen] folded).
  split; [|split; [|split]].
  - apply Forall_rstrip, Forall_take, Forall_strip.
    apply Forall_sub_runs.
    + by repeat constructor.
    + intros c Hc. unfold is_slug_char.
      by destruct (is_az09 c).
  - destruct (rstrip_prefix is_hyphen (take 60 (strip is_hyphen subbed)))
      as [suf Hsuf].
    assert (length (take 60 (strip is_hyphen subbed)) ≤ 60)%nat as Hle
      by (rewrite length_take; lia).
    rewrite Hsuf, length_app in Hle. lia.
  - destruct (single_hyphens_sub_runs (λ c, negb (is_az09 c)) false folded)
      as [Hs _]; [done|].
    fold (sub_runs (λ c, negb (is_az09 c)) [hyphen] folded) in Hs. fold subbed in Hs.
    destruct (rstrip_prefix is_hyphen (take 60 (strip is_hyphen subbed)))
      as [suf1 H1].
    destruct (rstrip_prefix is_hyphen (lstrip is_hyphen subbed))
      as [suf2 H2].
    destruct (drop_while_suffix is_hyphen subbed) as [pre3 H3].
    fold (lstrip is_hyphen subbed) in H3. fold (strip is_hyphen subbed) in H2.
    rewrite H3 in Hs. apply single_hyphens_app in Hs as [_ Hs].
    rewrite H2 in Hs. apply single_hyphens_app in Hs as [Hs _].
    rewrite <- (take_drop 60 (strip is_hyphen subbed)) in Hs.
    apply single_hyphens_app in Hs as [Hs _].
    rewrite H1 in Hs. by apply single_hyphens_app in Hs as [Hs _].
  - intros Hl. by apply rstrip_last in Hl.
Qed.

(** An identifier that went through [sanitize_id]. *)
Lemma sanitize_id_shape old_id :
  Forall (λ c, is_slug_char c = true) (sanitize_id old_id)
  ∧ last (sanitize_id old_id) ≠ Some hyphen.
Proof.
  unfold sanitize_id. split.
  - apply Forall_rstrip, Forall_strip, Forall_sub_runs.
    + by repeat constructor.
    + intros c Hc. unfold is_slug_char.
      by destruct (is_az09 c || is_hyphen c).
  - intros Hl. by apply rstrip_last in Hl.
Qed.

Lemma validate_category_valid_publisher article :
  (validate_category article).1 ∈ VALID_CATEGORIES.
Proof.
  unfold validate_category.
  destruct (get_or _ _ article) as [| | | |c| |] eqn:E; simpl;
    try (by apply in_strs_elem).
  destruct (in_strs (VStr c) VALID_CATEGORIES) eqn:Ein; simpl.
  - by apply in_strs_elem.
  - by apply in_strs_elem.
Qed.

Lemma validate_category_frame article k :
  k ≠ lit "category" →
  dict_get k (validate_category article).2 = dict_get k article.
Proof.
  intros Hk. unfold validate_category.
  destruct (get_or _ _ article) as [| | | |c| |]; simpl;
    try (by apply dict_get_set_ne).
  destruct (negb _); simpl; [by apply dict_get_set_ne|done].
Qed.


Lemma ensure_date_frame clk article k :
  k ≠ lit "date" → dict_get k (ensure_date clk article) = dict_get k article.
Proof.
  intros Hk. unfold ensure_date.
  destruct (negb _); [by apply dict_get_set_ne|done].
Qed.

(** The identifier that the identifier step leaves in the article. *)
Lemma ensure_id_shape clk article art :
  ensure_id clk article = Ok art →
  ∃ id,
    dict_get (lit "id") art = Some (VStr id)
    ∧ Forall (λ c, is_slug_char c = true) id
    ∧ (truthy (get_none (lit "id") article) = false →
         ∃ title,
           get_or (lit "title") (VStr (lit "untitled")) article = VStr title
           ∧ id = strftime_ymd clk ++ [hyphen] ++ title_slug title)
    ∧ (∀ old_id, get_none (lit "id") article = VStr old_id → old_id ≠ [] →
         id = sanitize_id old_id).
Proof.
  unfold ensure_id. intros He.
  destruct (truthy (get_none (lit "id") article)) eqn:Et; simpl in He.
  - destruct (get_none (lit "id") article) as [| | | |old_id| |] eqn:Eid;
      try done.
    assert (∀ o, VStr old_id = VStr o → o ≠ [] → sanitize_id old_id = sanitize_id o)
      as Hsame by (by intros o [= ->]).
    destruct (str_eqb (sanitize_id old_id) old_id) eqn:Es; simpl in He;
      injection He as <-.
    + apply str_eqb_eq in Es. exists (sanitize_id old_id).
      split; [|split; [apply sanitize_id_shape|split; [done|done]]].
      rewrite Es. unfold get_none, get_or in Eid.
      by destruct (dict_get (lit "id") article) as [[]|]; simplify_eq.
    + exists (sanitize_id old_id).
      split; [apply dict_get_set_eq|].
      split; [apply sanitize_id_shape|split; [done|done]].
  - destruct (get_or (lit "title") _ article) as [| | | |title| |] eqn:Etitle;
      simpl in He; try done.
    injection He as <-.
    exists (strftime_ymd clk ++ [hyphen] ++ title_slug title).
    split; [apply dict_get_set_eq|]. split; [|split].
    + apply Forall_app. split; [apply strftime_slug|].
      apply Forall_app. split; [by repeat constructor|].
      apply title_slug_shape.
    + intros _. by exists title.
    + intros old_id Hold Hne. rewrite Hold in Et. simpl in Et.
      apply str_eqb_neq in Hne. by rewrite Hne in Et.
Qed.

(** A call that sent a request went through the steps of lines 118-153. *)
Lemma publish_sent_get W article url :
  GET url ∈ sent (publish_to_github W article) →
  ∃ art mdx_content,
    ensure_id (now W) (validate_category article).2 = Ok art
    ∧ generate_mdx (ensure_date (now W) art) = Ok mdx_content
    ∧ article_after (publish_to_github W article) = ensure_date (now W) art
    ∧ url = contents_url W
              (lit "content/" ++ (validate_category article).1 ++ lit "/"
               ++ fmt (get_none (lit "id") (ensure_date (now W) art))
               ++ lit ".mdx").
Proof.
  unfold publish_to_github.
  destruct (negb (truthy (VStr (GITHUB_TOKEN W)))); [by inversion 1|].
  destruct (negb (truthy (VStr (GITHUB_REPO W)))); [by inversion 1|].
  destruct (validate_category article) as [category art0]. cbn.
  destruct (ensure_id (now W) art0) as [art|e] eqn:Eid; [|by inversion 1].
  destruct (generate_mdx (ensure_date (now W) art)) as [mdx|e] eqn:Emdx;
    [|by inversion 1].
  destruct (get_existing_file_sha W _) as [sha|e]; cbn.
  2: { intros Hin%list_elem_of_singleton. exists art, mdx.
       repeat split; congruence. }
  destruct (build_payload W _ mdx sha) as [payload|e]; cbn.
  2: { intros Hin%list_elem_of_singleton. exists art, mdx.
       repeat split; congruence. }
  destruct (requests_put W _ payload) as [resp|e]; cbn.
  all: intros [Hin|Hin]%elem_of_cons;
    [exists art, mdx; repeat split; congruence|];
    apply list_elem_of_singleton in Hin; done.
Qed.



(** The URL of a request: the category of the path and the identifier. *)
Lemma publish_sent_get_id W article url :
  GET url ∈ sent (publish_to_github W article) →
  ∃ id,
    url = contents_url W (target_path (validate_category article).1 id)
    ∧ Forall (λ c, is_slug_char c = true) id
    ∧ (truthy (get_none (lit "id") article) = false →
         ∃ title,
           get_or (lit "title") (VStr (lit "untitled")) article = VStr title
           ∧ id = strftime_ymd (now W) ++ [hyphen] ++ title_slug title)
    ∧ (∀ old_id, get_none (lit "id") article = VStr old_id → old_id ≠ [] →
         id = sanitize_id old_id).
Proof.
  intros Hin.
  destruct (publish_sent_get _ _ _ Hin) as (art & mdx & Hid & _ & _ & ->).
  destruct (ensure_id_shape _ _ _ Hid) as (id & Hget & Hslug & Hnew & Hold).
  assert (get_none (lit "id") (validate_category article).2
          = get_none (lit "id") article) as Eid.
  { unfold get_none, get_or. by rewrite validate_category_frame. }
  assert (get_or (lit "title") (VStr (lit "untitled"))
            (validate_category article).2
          = get_or (lit "title") (VStr (lit "untitled")) article) as Etitle.
  { unfold get_or. by rewrite validate_category_frame. }
  rewrite Eid, Etitle in *.
  exists id. split; [|done].
  unfold target_path, get_none, get_or.
  rewrite ensure_date_frame by done. by rewrite Hget.
Qed.

(** Two calls for articles with the same identifier and the same category
    address the same document. *)
Lemma same_identifier_same_document W (a1 a2 : dict) url1 url2 id :
  GET url1 ∈ sent (publish_to_github W a1) →
  GET url2 ∈ sent (publish_to_github W a2) →
  get_none (lit "id") a1 = VStr id → get_none (lit "id") a2 = VStr id →
  id ≠ [] →
  get_or (lit "category") (VStr (lit "technology")) a1
  = get_or (lit "category") (VStr (lit "technology")) a2 →
  url1 = url2.
Proof.
  intros H1 H2 Hid1 Hid2 Hne Hcat.
  destruct (publish_sent_get_id _ _ _ H1) as (id1 & -> & _ & _ & Ho1).
  destruct (publish_sent_get_id _ _ _ H2) as (id2 & -> & _ & _ & Ho2).
  rewrite (Ho1 id Hid1 Hne), (Ho2 id Hid2 Hne).
  assert ((validate_category a1).1 = (validate_category a2).1) as ->; [|done].
  unfold validate_category. rewrite Hcat.
  destruct (get_or _ _ a2) as [| | | |c| |]; try done.
  by destruct (negb _).
Qed.


End PublisherProps.

Section LifecycleProps.
Context `{PyRuntime}.
Import scraper publish_remote bot.



(** C6. A title edit stores the candidate under the identifier computed
    from the new title, in place of the old key; the candidate gets the
    new title and the new identifier, and every other field is as it
    was. *)
Theorem edit_title_rekeys W st user_id text old_id (article : dict) :
  editing st !! user_id = Some old_id →
  pending st !! old_id = Some article →
  article ≠ [] →
  let new_title := strip is_space text in
  let new_id := strftime_ymd (now W) ++ [hyphen] ++ slugify new_title in
  let after := state (handle_message W st user_id text) in
  ∃ edited : dict,
    pending after = <[new_id := edited]> (delete old_id (pending st))
    ∧ dict_get (lit "title") edited = Some (VStr new_title)
    ∧ dict_get (lit "id") edited = Some (VStr new_id)
    ∧ (∀ k, k ≠ lit "title" → k ≠ lit "id" →
         dict_get k edited = dict_get k article)
    ∧ published after = published st
    ∧ editing after = delete user_id (editing st).
Proof.
  intros He Hp Hne new_title new_id after. subst after.
  unfold handle_message. rewrite He. cbn [pending published editing].
  rewrite Hp. destruct article as [|kv article]; [done|].
  change (make_article_id (now W) (VStr (strip is_space text)))
    with (Ok new_id).
  cbv beta iota zeta. fold new_title.
  set (edited := dict_set (lit "id") (VStr new_id)
                   (dict_set (lit "title") (VStr new_title) (kv :: article))).
  exists edited.
  assert (dict_get (lit "title") edited = Some (VStr new_title)) as Ht.
  { subst edited. rewrite dict_get_set_ne by done. apply dict_get_set_eq. }
  assert (dict_get (lit "id") edited = Some (VStr new_id)) as Hi
    by apply dict_get_set_eq.
  assert (∀ k, k ≠ lit "title" → k ≠ lit "id" →
            dict_get k edited = dict_get k (kv :: article)) as Hk.
  { intros k Hkt Hki. subst edited.
    rewrite dict_get_set_ne by done. by rewrite dict_get_set_ne. }
  by destruct (format_candidate edited).
Qed.

(** For every candidate that [process_article] returns with ["geo"]
    [None], [format_candidate] ends with an [AttributeError]: the default
    of [article.get("geo", {})] is not used when the key is there. *)
Lemma format_candidate_raises_on_null_geo
    key response entry geo_map (cand : dict) :
  process_article key response entry geo_map = Ok (Some cand) →
  dict_get (lit "geo") cand = Some VNone →
  format_candidate cand = Raise AttributeError.
Proof.
  intros Hp Hgeo.
  destruct (process_article_some _ _ _ _ _ Hp)
    as (res & category & tags & geo & _ & _ & _ & _ & Hcat & _ & _).
  unfold format_candidate, get_or. rewrite Hcat, Hgeo. reflexivity.
Qed.

Lemma validate_category_scraper_absent (res : dict) :
  dict_get (lit "category") res = None →
  scraper.validate_category (VDict res) = Ok (lit "technology").
Proof.
  intros Hc. unfold scraper.validate_category, obj_get, get_or.
  rewrite Hc. cbn [mbind result_bind].
  assert (str_lower (lit "technology") = lit "technology") as ->.
  { by rewrite str_lower_ascii. }
  reflexivity.
Qed.

Lemma validate_category_scraper_string (res : dict) s :
  dict_get (lit "category") res = Some (VStr s) →
  scraper.validate_category (VDict res)
  = Ok (if bool_decide (str_lower s ∈ scraper.VALID_CATEGORIES)
        then str_lower s else lit "technology").
Proof.
  intros Hc. unfold scraper.validate_category, obj_get, get_or.
  rewrite Hc. cbn [mbind result_bind].
  destruct (in_strs (VStr (str_lower s)) scraper.VALID_CATEGORIES) eqn:E.
  - apply in_strs_elem in E. by rewrite bool_decide_eq_true_2.
  - rewrite bool_decide_eq_false_2; [done|].
    intros Hin%in_strs_elem. congruence.
Qed.

Lemma validate_category_scraper_other (res : dict) v :
  dict_get (lit "category") res = Some v → (∀ s, v ≠ VStr s) →
  scraper.validate_category (VDict res) = Raise AttributeError.
Proof.
  intros Hc Hv. unfold scraper.validate_category, obj_get, get_or.
  rewrite Hc. cbn [mbind result_bind].
  destruct v; try done. by destruct (Hv s).
Qed.

(** What holds of the category.  Every candidate that the rewriter returns
    has a category of the fixed set: an absent category and a string that,
    lowercased, is not in the set become ["technology"], and a response
    whose category is not a string yields no candidate.  In the publisher
    the category used for the path is always of the fixed set, and a value
    that is not in the set is overwritten with ["technology"]. *)
Lemma category_in_fixed_set :
  (∀ key response entry geo_map (cand : dict),
     process_article key response entry geo_map = Ok (Some cand) →
     ∃ c, dict_get (lit "category") cand = Some (VStr c)
          ∧ c ∈ scraper.VALID_CATEGORIES)
  ∧ (∀ res : dict,
       dict_get (lit "category") res = None →
       scraper.validate_category (VDict res) = Ok (lit "technology"))
  ∧ (∀ (res : dict) s,
       dict_get (lit "category") res = Some (VStr s) →
       scraper.validate_category (VDict res)
       = Ok (if bool_decide (str_lower s ∈ scraper.VALID_CATEGORIES)
             then str_lower s else lit "technology"))
  ∧ (∀ key (res : dict) entry geo_map v (cand : dict),
       dict_get (lit "category") res = Some v → (∀ s, v ≠ VStr s) →
       process_article key (Ok (VDict res)) entry geo_map ≠ Ok (Some cand))
  ∧ (∀ article : dict,
       (publish_remote.validate_category article).1
       ∈ publish_remote.VALID_CATEGORIES)
  ∧ (∀ (article : dict) v,
       dict_get (lit "category") article = Some v →
       in_strs v publish_remote.VALID_CATEGORIES = false →
       publish_remote.validate_category article
       = (lit "technology",
          dict_set (lit "category") (VStr (lit "technology")) article))
  ∧ (∀ article : dict,
       dict_get (lit "category") article = None →
       (publish_remote.validate_category article).1 = lit "technology").
Proof.
  split; [|split; [|split; [|split; [|split; [|split]]]]].
  - intros key response entry geo_map cand Hp.
    destruct (process_article_some _ _ _ _ _ Hp)
      as (res & category & tags & geo & _ & Hc & _ & _ & Hcat & _ & _).
    exists category. split; [done|]. by apply validate_category_valid in Hc.
  - apply validate_category_scraper_absent.
  - apply validate_category_scraper_string.
  - intros key res entry geo_map v cand Hc Hv Hp.
    destruct (process_article_some _ _ _ _ _ Hp)
      as (res' & category & tags & geo & [= <-] & Hok & _).
    by rewrite (validate_category_scraper_other _ _ Hc Hv) in Hok.
  - apply validate_category_valid_publisher.
  - intros article v Hc Hv. unfold publish_remote.validate_category, get_or.
    rewrite Hc. destruct v; try done. by rewrite Hv.
  - intros article Hc. unfold publish_remote.validate_category, get_or.
    by rewrite Hc.
Qed.

(** C8. The tag list of a candidate holds at most seven tags: the first
    seven tags of the response, each converted to a string, lowercased and
    stripped; a ["tags"] that is not a list gives the empty list.  Eight
    uppercase tags give exactly seven tags, all lowercase. *)
Theorem tags_capped_and_cleaned key response entry geo_map (cand : dict) :
  process_article key response entry geo_map = Ok (Some cand) →
  ∃ res,
    response = Ok res
    ∧ dict_get (lit "tags") cand
      = Some (VList (map clean_tag (take 7 (raw_tags res))))
    ∧ length (map clean_tag (take 7 (raw_tags res)))
      = (7 `min` length (raw_tags res))%nat
    ∧ (length (map clean_tag (take 7 (raw_tags res))) ≤ 7)%nat
    ∧ ((∀ (d : dict) l,
          res = VDict d → dict_get (lit "tags") d ≠ Some (VList l))
       → dict_get (lit "tags") cand = Some (VList []))
    ∧ map clean_tag
        (take 7 (map (λ s, VStr (lit s))
                   ["A"; "B"; "C"; "D"; "E"; "F"; "G"; "H"]%string))
      = map (λ s, VStr (lit s)) ["a"; "b"; "c"; "d"; "e"; "f"; "g"]%string.
Proof.
  intros Hp.
  destruct (process_article_some _ _ _ _ _ Hp)
    as (res & category & tags & geo & -> & _ & Ht & _ & _ & Htags & _).
  apply validate_tags_eq in Ht. subst tags.
  exists res. split; [done|]. split; [done|].
  rewrite length_map, length_take. split; [done|]. split; [lia|]. split.
  { intros Hnl. rewrite Htags. unfold raw_tags.
    destruct res as [| | | | | |d]; try done.
    destruct (dict_get (lit "tags") d) as [[| | | | |l|]|] eqn:Et; try done.
    by destruct (Hnl d l). }
  unfold clean_tag. cbn [map take fmt].
  rewrite !str_lower_ascii by reflexivity. reflexivity.
Qed.
End LifecycleProps.

(** * The properties on the sample inputs *)

Section Scenarios.
Import scraper publish_remote bot sample.

(** Section 8: two entries with the same link in two sources give one
    entry; the link that was seen before gives none. *)
Example same_link_in_two_sources :
  entry_links (scrape_feeds sources seen parse (clk_isoformat clk)).1
  = [lit "https://example.com/a"].
Proof. by_running. Qed.

Lemma scrape_feeds_dedup_witness :
  let run := scrape_feeds sources seen parse (clk_isoformat clk) in
  emitted (lit "https://example.com/a") run.1 = 1%nat
  ∧ emitted (lit "https://example.com/old") run.1 = 0%nat
  ∧ seen ⊆ run.2.
Proof.
  destruct (scrape_feeds_dedup sources seen parse (clk_isoformat clk))
    as (_ & Hseen & Hoffered & _ & Hmono).
  split; [|split].
  - apply Hoffered.
    + vm_compute. apply list_elem_of_here.
    + discriminate.
    + unfold seen. intros Hin%elem_of_singleton. discriminate.
  - apply Hseen. unfold seen. by apply elem_of_singleton.
  - exact Hmono.
Defined.

(** Section 8: a rejected candidate is no longer in the store, and a
    refused publication leaves the store and the history as they were and
    tells the admin. *)
Example reject_removes_candidate :
  pending (state (handle_callback store_without reviewing
                    (lit "reject_" ++ test_id) 7)) !! test_id = None.
Proof. by_running. Qed.

Example refused_publication_is_reported :
  replies (handle_callback store_refusing reviewing
             (lit "approve_" ++ test_id) 7)
  = [Publishing (lit "Test Article " ++ [8212] ++ lit " Pipeline Check");
     PublishFailed (lit "Test Article " ++ [8212] ++ lit " Pipeline Check")
       (lit "GitHub API error (422): Invalid request")].
Proof. by_running. Qed.

Lemma approve_commits_iff_success_witness :
  pending reviewing !! test_id = Some (test_article clk)
  ∧ (let after := state (handle_callback store_without reviewing
                           (lit "approve_" ++ test_id) 7) in
     pending after = delete test_id (pending reviewing)
     ∧ published after = [recorded_title (test_article clk)])
  ∧ state (handle_callback store_refusing reviewing
             (lit "approve_" ++ test_id) 7) = reviewing.
Proof.
  split; [by_running|]. split.
  - destruct (approve_commits_iff_success store_without reviewing test_id
                (test_article clk) 7) as [Hyes _];
      [by_running|discriminate|].
    destruct Hyes as (Hp & Hh & _); [by_running|].
    split; [exact Hp|exact Hh].
  - destruct (approve_commits_iff_success store_refusing reviewing test_id
                (test_article clk) 7) as [_ Hno];
      [by_running|discriminate|].
    apply Hno. by_running.
Defined.



(** C4. The category is not coerced to the default on every input.  A
    response whose category is [null] is not turned into a candidate of
    the category ["technology"]: [.lower()] raises on [None] and the
    rewriter returns no candidate.  An article without category makes the
    publisher raise a [KeyError] in [generate_mdx], before any request:
    the default of line 119 is not assigned to the article. *)
Theorem category_not_coerced_when_null_or_absent :
  process_article api_key (Ok answer_null_category) entry geo_map = Ok None
  ∧ (¬ ∃ cand : dict,
         process_article api_key (Ok answer_null_category) entry geo_map
         = Ok (Some cand)
         ∧ dict_get (lit "category") cand = Some (str "technology"))
  ∧ returned (publish_to_github store_without article_without_category)
    = Raise KeyError
  ∧ sent (publish_to_github store_without article_without_category) = [].
Proof.
  assert (process_article api_key (Ok answer_null_category) entry geo_map
          = Ok None) as E by (by_running).
  split; [exact E|]. split.
  - intros (cand & Hc & _). rewrite E in Hc. discriminate.
  - split; by_running.
Qed.

(** The scenario of section 8: the category is defaulted. *)
Example bogus_category_is_defaulted :
  ∃ cand : dict,
    process_article api_key (Ok answer_bogus) entry geo_map = Ok (Some cand)
    ∧ dict_get (lit "category") cand = Some (str "technology").
Proof. eexists. split; by_running. Qed.

(** A title edit that gives the same slug on the same day keeps the store
    key, and the title of the candidate is not what it was. *)
Lemma edit_keeps_key_and_changes_title :
  let after := state (handle_message store_without retitling 7
                        (lit "Test Article Pipeline Check")) in
  dom (pending after) = dom (pending retitling)
  ∧ ∃ edited : dict,
      pending after !! test_id = Some edited
      ∧ dict_get (lit "title") edited = Some (str "Test Article Pipeline Check")
      ∧ dict_get (lit "title") edited
        ≠ dict_get (lit "title") (test_article clk).
Proof.
  cbv zeta. split; [by_running|].
  eexists. split; [by_running|].
  split; [by_running|]. vm_compute. discriminate.
Qed.

Lemma edit_title_rekeys_witness :
  editing retitling !! 7%Z = Some test_id
  ∧ pending retitling !! test_id = Some (test_article clk)
  ∧ ∃ edited : dict,
      pending (state (handle_message store_without retitling 7
                        (lit " Breaking: New Chip ")))
      = <[lit "2026-11-03-breaking-new-chip" := edited]>
          (delete test_id (pending retitling))
      ∧ dict_get (lit "title") edited = Some (str "Breaking: New Chip")
      ∧ dict_get (lit "excerpt") edited
        = dict_get (lit "excerpt") (test_article clk).
Proof.
  split; [by_running|]. split; [by_running|].
  destruct (edit_title_rekeys store_without retitling 7
              (lit " Breaking: New Chip ") test_id (test_article clk))
    as (edited & Hp & Ht & _ & Hk & _);
    [by_running|by_running|discriminate|].
  exists edited. split; [exact Hp|]. split; [exact Ht|].
  apply Hk; discriminate.
Defined.



(** A response with one tag gives a candidate with one tag. *)
Lemma single_tag_is_kept :
  ∃ (cand : dict) tags,
    process_article api_key (Ok answer_one_tag) entry geo_map = Ok (Some cand)
    ∧ dict_get (lit "tags") cand = Some (VList tags)
    ∧ ¬ (3 ≤ length tags)%nat.
Proof.
  eexists _, _. split; [by_running|].
  split; [by_running|]. vm_compute. lia.
Qed.

Lemma tags_capped_and_cleaned_witness :
  ∃ cand : dict,
    process_article api_key (Ok answer_bogus) entry geo_map = Ok (Some cand)
    ∧ dict_get (lit "tags") cand
      = Some (VList (map str ["a"; "b"; "c"; "d"; "e"; "f"; "g"]%string)).
Proof.
  destruct (process_article api_key (Ok answer_bogus) entry geo_map)
    as [[cand|]|] eqn:E; try (vm_compute in E; discriminate).
  exists cand. split; [reflexivity|].
  destruct (tags_capped_and_cleaned _ _ _ _ _ E)
    as (res & [= <-] & -> & _).
  by_running.
Defined.


(** C10. The formatter of the review message is not total over the
    candidates of the pipeline: the rewriter returns the candidate of a
    response without location with ["geo"] [None], and on that candidate
    [format_candidate] raises an [AttributeError] and returns no string. *)
Theorem format_candidate_fails_on_rewriter_candidate :
  ∃ cand : dict,
    process_article api_key (Ok answer_bogus) entry geo_map = Ok (Some cand)
    ∧ dict_get (lit "geo") cand = Some VNone
    ∧ format_candidate cand = Raise AttributeError.
Proof.
  destruct (process_article api_key (Ok answer_bogus) entry geo_map)
    as [[cand|]|] eqn:E; try (vm_compute in E; discriminate).
  exists cand. split; [reflexivity|].
  assert (dict_get (lit "geo") cand = Some VNone) as Hgeo.
  { vm_compute in E. injection E as <-. by_running. }
  split; [exact Hgeo|].
  exact (format_candidate_raises_on_null_geo _ _ _ _ _ E Hgeo).
Qed.

(** What the admin gets of a scrape that yields such a candidate: the
    candidate is put into the store, its message is never sent, and the
    run ends with the error notice. *)
Example run_scrape_stops_at_null_geo :
  ∃ cand : dict,
    process_article api_key (Ok answer_bogus) entry geo_map = Ok (Some cand)
    ∧ replies (run_scrape store_without reviewing (Ok [cand; cand]))
      = [ScrapeFound 2; ScrapeError]
    ∧ dom (pending (state (run_scrape store_without reviewing
                             (Ok [cand; cand]))))
      = {[test_id; lit "2026-11-03-new-title"]}.
Proof.
  eexists. split; [by_running|].
  split; by_running.
Qed.
End Scenarios.

(** * Further properties: the feed ingester *)

Section IngesterProps.
Context `{PyRuntime}.
Import scraper.

Lemma scrape_source_skipped parse now st source :
  fetched parse source = [] → scrape_source parse now st source = st.
Proof.
  unfold fetched, scrape_source.
  destruct (truthy _); [|done]. cbn.
  destruct (parse _) as [entries|]; [|done]. cbn. by intros ->.
Qed.

(** X1. A source without url, a source whose fetch raises and a source without
    entries are skipped: the run returns and records what it would without
    that source. *)
Theorem skipped_source_changes_nothing before source after seen parse now :
  fetched parse source = [] →
  scrape_feeds (before ++ source :: after) seen parse now
  = scrape_feeds (before ++ after) seen parse now.
Proof.
  intros Hskip. unfold scrape_feeds. rewrite !foldl_app. cbn.
  by rewrite (scrape_source_skipped _ _ _ _ Hskip).
Qed.

Lemma scrape_entry_known name url now st entry :
  (∀ l, item_link entry = Some l → l ≠ [] → l ∈ st.2) →
  scrape_entry name url now st entry = st.
Proof.
  intros Hseen. unfold scrape_entry.
  destruct (item_link entry) as [l|]; cbn; [|done].
  destruct (str_eqb l []) eqn:El; cbn; [done|].
  apply str_eqb_neq in El. by rewrite bool_decide_eq_true_2 by auto.
Qed.

Lemma scrape_entries_known name url now entries st :
  (∀ l, Some l ∈ map item_link entries → l ≠ [] → l ∈ st.2) →
  foldl (scrape_entry name url now) st entries = st.
Proof.
  induction entries as [|e es IH]; intros Hseen; cbn; [done|].
  rewrite scrape_entry_known.
  - apply IH. intros l Hl. apply Hseen. cbn. by apply list_elem_of_further.
  - intros l Hl. apply Hseen. cbn. rewrite Hl. apply list_elem_of_here.
Qed.

Lemma scrape_source_known parse now st source :
  (∀ l, Some l ∈ map item_link (fetched parse source) → l ≠ [] → l ∈ st.2) →
  scrape_source parse now st source = st.
Proof.
  unfold fetched, scrape_source.
  destruct (truthy _); cbn; [|done].
  destruct (parse _) as [entries|]; cbn; [|done].
  apply scrape_entries_known.
Qed.

Lemma scrape_feeds_known sources seen parse now :
  (∀ l, l ∈ offered_links parse sources → l ≠ [] → l ∈ seen) →
  scrape_feeds sources seen parse now = ([], seen).
Proof.
  unfold scrape_feeds, offered_links.
  induction sources as [|src srcs IH]; intros Hseen; cbn; [done|].
  rewrite scrape_source_known.
  - apply IH. intros l Hl. apply Hseen. cbn. apply elem_of_app. by right.
  - intros l Hl. apply Hseen. cbn. apply elem_of_app. left.
    apply list_elem_of_omap. apply list_elem_of_fmap in Hl as (e & He & Hin).
    eauto.
Qed.

(** X2. A second run over the same feeds, started from the set that the first
    run saved, emits nothing and saves the same set. *)
Theorem second_run_emits_nothing sources seen parse now now' :
  let saved := (scrape_feeds sources seen parse now).2 in
  scrape_feeds sources saved parse now' = ([], saved).
Proof.
  intros saved. apply scrape_feeds_known.
  intros l Hl Hne. by apply scrape_feeds_sees.
Qed.

Lemma scrape_entry_emitted name url now st entry :
  Forall emitted_entry st.1 →
  Forall emitted_entry (scrape_entry name url now st entry).1.
Proof.
  intros Hst. unfold scrape_entry. cbn [truthy].
  destruct (str_eqb (default [] (item_link entry)) []) eqn:El; cbn; [done|].
  case_bool_decide; cbn; [done|].
  apply Forall_app. split; [done|]. constructor; [|done].
  eexists _, _, _, _, _, _. split; [reflexivity|].
  split; [by apply str_eqb_neq|]. rewrite length_take. lia.
Qed.

(** An induction principle for a run: what holds at the start and is kept
    by every pass of the inner loop holds at the end. *)
Lemma scrape_feeds_ind (P : list dict * gset pystr → Prop)
    sources seen parse now :
  P ([], seen) →
  (∀ name url st entry, P st → P (scrape_entry name url now st entry)) →
  P (scrape_feeds sources seen parse now).
Proof.
  intros Hstart Hstep. unfold scrape_feeds.
  revert Hstart. generalize (([], seen) : list dict * gset pystr).
  induction sources as [|src srcs IH]; intros st Hst; cbn; [done|].
  apply IH. unfold scrape_source.
  destruct (negb _); [done|]. destruct (parse _) as [entries|]; [|done].
  clear IH. revert st Hst.
  induction entries as [|e es IHe]; intros st Hst; cbn; [done|].
  apply IHe, Hstep, Hst.
Qed.

(** X3. Every entry that a run emits has the six fields, a link that is not
    empty and a summary of at most 2000 characters. *)
Theorem emitted_entries_are_normalized sources seen parse now :
  Forall emitted_entry (scrape_feeds sources seen parse now).1.
Proof.
  apply (scrape_feeds_ind (λ st, Forall emitted_entry st.1)).
  - constructor.
  - intros name url st entry Hst. by apply scrape_entry_emitted.
Qed.
End IngesterProps.

(** * Further properties: the rewriter *)

(** The look-ups of literal keys in a dict whose keys are literals. *)
Ltac lookup_keys :=
  repeat match goal with
         | |- context [dict_get (lit ?k) ((?k', ?v) :: ?d)] =>
             let t := constr:(dict_get (lit k) ((k', v) :: d)) in
             let r := eval lazy in t in
             change t with r
         end.

Section RewriterProps.
Context `{PyRuntime}.
Import scraper.

Lemma mapM_total {A B} (f : A → result B) (l : list A) :
  Forall (λ x, ∃ y, f x = Ok y) l → ∃ ys, mapM f l = Ok ys.
Proof.
  induction 1 as [|x l [y Hy] _ [ys IH]]; [by exists []|].
  exists (y :: ys). cbn. rewrite Hy. cbn. fold (mapM f l). by rewrite IH.
Qed.





(** The steps that a returned candidate went through. *)
Lemma process_article_fields key response (entry geo_map cand : dict) :
  process_article key response entry geo_map = Ok (Some cand) →
  ∃ res category excerpt0 excerpt tags geo_raw geo title content,
    response = Ok res
    ∧ validate_category res = Ok category
    ∧ slice_to 250 excerpt0 = Ok excerpt
    ∧ validate_tags res = Ok tags
    ∧ obj_get (lit "geo") VNone res = Ok geo_raw
    ∧ _resolve_geo geo_raw geo_map = Ok geo
    ∧ cand = [(lit "source_name", get_none (lit "source_name") entry);
              (lit "source_url", get_none (lit "source_url") entry);
              (lit "original_link", get_none (lit "link") entry);
              (lit "published", get_none (lit "published") entry);
              (lit "category", VStr category);
              (lit "title", title);
              (lit "excerpt", excerpt);
              (lit "content", content);
              (lit "tags", VList tags);
              (lit "geo", geo)].
Proof.
  unfold process_article, subscript, get_none, get_or.
  destruct (negb _); [discriminate|].
  bind_cases. intros [= <-].
  repeat match goal with
         | Hd : match dict_get ?k ?d with _ => _ end = _ |- _ =>
             destruct (dict_get k d) eqn:?; [injection Hd as ->|discriminate]
         end.
  do 9 eexists. repeat split; try eassumption; reflexivity.
Qed.

Lemma canonical_georef loc g : canonical loc = Ok g → georef g.
Proof.
  unfold canonical. bind_cases. intros [= <-]. by eexists _, _, _, _.
Qed.

Lemma match_known_georef geo_name known g :
  match_known geo_name known = Ok (Some g) → georef g.
Proof.
  induction known as [|[key loc] known IH]; cbn; [done|].
  destruct (lower_in key geo_name) as [[]|]; cbn; try done.
  destruct (canonical loc) as [g'|] eqn:E; cbn; [|done].
  intros [= <-]. by eapply canonical_georef.
Qed.

Lemma match_company_georef geo_name known company_hq g :
  match_company geo_name known company_hq = Ok (Some g) → georef g.
Proof.
  induction company_hq as [|[company hq] company_hq IH]; cbn; [done|].
  destruct (lower_in company geo_name) as [hit|]; cbn; [|done].
  destruct (if hit then key_in hq known else Ok false) as [[]|]; cbn;
    try done.
  destruct hq; try done.
  destruct (subscript s known) as [loc|]; cbn; [|done].
  destruct (canonical loc) as [g'|] eqn:E; cbn; [|done].
  intros [= <-]. by eapply canonical_georef.
Qed.

Lemma resolve_geo_georef geo_raw geo_map g :
  _resolve_geo geo_raw geo_map = Ok g → g = VNone ∨ georef g.
Proof.
  unfold _resolve_geo.
  destruct geo_raw as [| | | | | |[|kv raw]]; try by (intros [= <-]; left).
  destruct (get_or (lit "known_locations") _ geo_map); try done.
  destruct (match_known _ _) as [[g1|]|] eqn:E1; cbn; try done.
  { intros [= <-]. right. by eapply match_known_georef. }
  destruct (get_or (lit "company_hq") _ geo_map); try done.
  destruct (match_company _ _ _) as [[g2|]|] eqn:E2; cbn; try done.
  { intros [= <-]. right. by eapply match_company_georef. }
  unfold model_coordinates. destruct (_ && _); [|by (intros [= <-]; left)].
  bind_cases. intros [= <-]. right. by eexists _, _, _, _.
Qed.

Lemma slice_to_clipped n v w : slice_to n v = Ok w → clipped n w.
Proof.
  destruct v; try done; intros [= <-]; [left|right]; eexists;
    (split; [done|]); rewrite length_take; lia.
Qed.

(** X4. A candidate that the rewriter returns has the ten fields in their order:
    source name, source url, link and date are those of the entry, the
    category is one of the fixed set, the excerpt has at most 250
    characters, the tags are at most seven strings, and the location is
    [None] or has the four fields of a location. *)
Theorem candidates_are_well_formed key response (entry geo_map cand : dict) :
  process_article key response entry geo_map = Ok (Some cand) →
  rewritten entry cand.
Proof.
  intros Hp.
  destruct (process_article_fields _ _ _ _ _ Hp)
    as (res & category & excerpt0 & excerpt & tags & geo_raw & geo & title
        & content & _ & Hcat & Hexc & Htags & _ & Hgeo & ->).
  exists category, title, excerpt, content, tags, geo.
  split; [done|]. split; [by eapply validate_category_valid|].
  split; [by eapply slice_to_clipped|].
  apply validate_tags_eq in Htags. subst tags.
  split; [rewrite length_map, length_take; lia|].
  split; [|by eapply resolve_geo_georef].
  apply Forall_map, Forall_forall. intros t _. by eexists.
Qed.


End RewriterProps.

(** * Further properties: the review front-end *)

Section FrontEndProps.
Context `{PyRuntime}.
Import scraper publish_remote bot.

Lemma format_candidate_rewritten
    source_name source_url link published category title excerpt content
    tags geo :
  clipped 250 excerpt → Forall is_string tags → georef geo →
  ∃ text,
    format_candidate
      [(lit "source_name", source_name); (lit "source_url", source_url);
       (lit "original_link", link); (lit "published", published);
       (lit "category", VStr category); (lit "title", title);
       (lit "excerpt", excerpt); (lit "content", content);
       (lit "tags", VList tags); (lit "geo", geo)]
    = Ok text.
Proof.
  intros Hexc Htags (name & lat & lon & cc & ->).
  unfold format_candidate, get_or. lookup_keys.
  cbn [emoji_for mbind result_bind obj_get slice_to iterate as_str].
  unfold get_or. lookup_keys. cbn [mbind result_bind].
  edestruct (mapM_total
    (λ t, t ← as_str t; Ok ([35] ++ replace_char hyphen [underscore] t))
    (take 5 tags)) as [shown ->].
  { apply Forall_take. eapply Forall_impl; [exact Htags|].
    intros t [s ->]. by eexists. }
  cbn [mbind result_bind].
  destruct Hexc as [(s & -> & _)|(l & -> & _)]; cbn; by eexists.
Qed.

(** X6. On a candidate of the rewriter, the review message can be formatted
    exactly when the location of the candidate is not [None]. *)
Theorem format_candidate_succeeds_iff_located
    key response (entry geo_map cand : dict) :
  process_article key response entry geo_map = Ok (Some cand) →
  (∃ text, format_candidate cand = Ok text)
  ↔ dict_get (lit "geo") cand ≠ Some VNone.
Proof.
  intros Hp. split.
  - intros [text Htext] Hgeo.
    by rewrite (format_candidate_raises_on_null_geo _ _ _ _ _ Hp Hgeo)
      in Htext.
  - destruct (process_article_fields _ _ _ _ _ Hp)
      as (res & category & excerpt0 & excerpt & tags & geo_raw & geo & title
          & content & _ & _ & Hexc & Htags & _ & Hgeo & ->).
    lookup_keys. intros Hnn.
    apply validate_tags_eq in Htags. subst tags.
    apply format_candidate_rewritten.
    + by eapply slice_to_clipped.
    + apply Forall_map, Forall_forall. intros t _. by eexists.
    + by destruct (resolve_geo_georef _ _ _ Hgeo) as [->|].
Qed.

Lemma split_reject (article_id : pystr) :
  split_once underscore (lit "reject_" ++ article_id)
  = Some (lit "reject", article_id).
Proof. reflexivity. Qed.

Lemma split_edit (article_id : pystr) :
  split_once underscore (lit "edit_" ++ article_id)
  = Some (lit "edit", article_id).
Proof. reflexivity. Qed.

Lemma handle_callback_reject W st (article_id : pystr) (article : dict)
    from_user :
  pending st !! article_id = Some article → article ≠ [] →
  handle_callback W st (lit "reject_" ++ article_id) from_user
  = reject st article_id article.
Proof.
  intros Hp Hne. unfold handle_callback.
  change (negb (truthy (VStr (lit "reject_" ++ article_id)))) with false.
  cbv iota. rewrite split_reject, Hp.
  destruct article as [|kv article]; [done|]. reflexivity.
Qed.

Lemma handle_callback_edit W st (article_id : pystr) (article : dict)
    from_user :
  pending st !! article_id = Some article → article ≠ [] →
  handle_callback W st (lit "edit_" ++ article_id) from_user
  = edit st from_user article_id article.
Proof.
  intros Hp Hne. unfold handle_callback.
  change (negb (truthy (VStr (lit "edit_" ++ article_id)))) with false.
  cbv iota. rewrite split_edit, Hp.
  destruct article as [|kv article]; [done|]. reflexivity.
Qed.

(** X7. The three buttons that are sent with a candidate address that
    candidate, whatever its identifier, underscores included: pressing them
    runs the approval, the rejection and the start of an edit of the
    candidate. *)
Theorem buttons_address_their_candidate W st (article_id : pystr)
    (article : dict) from_user :
  pending st !! article_id = Some article → article ≠ [] →
  map (map (λ b, handle_callback W st (bot_controls.callback_data b) from_user))
    (bot_controls.make_buttons article_id)
  = [[approve W st article_id article; reject st article_id article];
     [edit st from_user article_id article]].
Proof.
  intros Hp Hne. unfold bot_controls.make_buttons. cbn [map bot_controls.callback_data].
  rewrite (handle_callback_approve _ _ _ _ _ Hp Hne).
  rewrite (handle_callback_reject _ _ _ _ _ Hp Hne).
  by rewrite (handle_callback_edit _ _ _ _ _ Hp Hne).
Qed.

(** X8. Rejecting a pending candidate that has a title removes that candidate
    and nothing else: the other candidates, the history and the edit
    sessions are as they were, and nothing is published.  A candidate
    without title is not removed: the handler ends with a [KeyError]. *)
Theorem reject_removes_that_candidate W st (article_id : pystr)
    (article : dict) from_user :
  pending st !! article_id = Some article → article ≠ [] →
  let after := handle_callback W st (lit "reject_" ++ article_id) from_user in
  (∀ title, dict_get (lit "title") article = Some title →
     pending (state after) = delete article_id (pending st)
     ∧ published (state after) = published st
     ∧ editing (state after) = editing st
     ∧ replies after = [Rejected (fmt title)]
     ∧ raised after = None)
  ∧ (dict_get (lit "title") article = None →
     state after = st ∧ raised after = Some KeyError).
Proof.
  intros Hp Hne after. subst after.
  rewrite (handle_callback_reject _ _ _ _ _ Hp Hne).
  unfold reject, subscript. split.
  - by intros title ->.
  - by intros ->.
Qed.

(** X9. A press that names no pending candidate changes nothing: data without
    underscore is ignored, and an identifier that is not in the store, or
    no longer, is answered with the notice.  Neither raises. *)
Theorem stale_press_changes_nothing W st data from_user :
  (∀ action article_id,
     split_once underscore data = Some (action, article_id) →
     pending st !! article_id = None) →
  let after := handle_callback W st data from_user in
  state after = st ∧ raised after = None
  ∧ (replies after = [] ∨ replies after = [NoLongerAvailable])
  ∧ (split_once underscore data = None → replies after = []).
Proof.
  intros Hstale after. subst after. unfold handle_callback.
  destruct (negb (truthy (VStr data))); [by auto|].
  destruct (split_once underscore data) as [[action article_id]|];
    [|by auto].
  rewrite (Hstale action article_id eq_refl). cbn.
  repeat split; by auto.
Qed.

(** The stores after a message that ends an edit session on a pending
    candidate. *)
Lemma handle_message_rekeys W st user_id text (old_id : pystr)
    (article : dict) :
  editing st !! user_id = Some old_id →
  pending st !! old_id = Some article → article ≠ [] →
  let new_title := strip is_space text in
  let new_id := strftime_ymd (now W) ++ [hyphen] ++ slugify new_title in
  let edited := dict_set (lit "id") (VStr new_id)
                  (dict_set (lit "title") (VStr new_title) article) in
  state (handle_message W st user_id text)
  = {| pending := <[new_id := edited]> (delete old_id (pending st));
       published := published st;
       editing := delete user_id (editing st) |}.
Proof.
  intros He Hp Hne new_title new_id edited.
  unfold handle_message. rewrite He. cbn [pending published editing].
  rewrite Hp. destruct article as [|kv article]; [done|].
  change (make_article_id (now W) (VStr (strip is_space text)))
    with (Ok new_id).
  cbv beta iota zeta. fold new_title. fold edited.
  by destruct (format_candidate edited).
Qed.

(** X10. A whole title edit: the press of the edit button opens a session for
    the user and leaves the store alone; the next message of that user
    closes the session and moves the candidate to the identifier of the
    new title.  The sessions of the other users are as they were. *)
Theorem edit_then_message_retitles W st (article_id : pystr) (article : dict)
    user_id text :
  pending st !! article_id = Some article → article ≠ [] →
  is_Some (dict_get (lit "title") article) →
  let opened := handle_callback W st (lit "edit_" ++ article_id) user_id in
  let closed := handle_message W (state opened) user_id text in
  let new_title := strip is_space text in
  let new_id := strftime_ymd (now W) ++ [hyphen] ++ slugify new_title in
  pending (state opened) = pending st
  ∧ editing (state opened) = <[user_id := article_id]> (editing st)
  ∧ raised opened = None
  ∧ pending (state closed)
    = <[new_id := dict_set (lit "id") (VStr new_id)
                     (dict_set (lit "title") (VStr new_title) article)]>
        (delete article_id (pending st))
  ∧ editing (state closed) = delete user_id (editing st)
  ∧ published (state closed) = published st.
Proof.
  intros Hp Hne [title Ht] opened closed new_title new_id.
  subst opened closed.
  rewrite (handle_callback_edit _ _ _ _ _ Hp Hne).
  assert (edit st user_id article_id article
          = {| state := {| pending := pending st; published := published st;
                           editing := <[user_id := article_id]> (editing st) |};
               replies := [EditPrompt (fmt title)]; raised := None |}) as ->.
  { unfold edit, subscript. by rewrite Ht. }
  cbn [state raised pending editing].
  split; [done|]. split; [done|]. split; [done|].
  rewrite (handle_message_rekeys W _ user_id text article_id article).
  - cbn [pending published editing]. split; [done|]. split; [|done].
    by rewrite delete_insert_eq.
  - cbn. apply lookup_insert_eq.
  - done.
  - done.
Qed.

(** X11. A message that finds no candidate to retitle leaves the candidates and
    the history alone.  Without an open session of the user it is ignored;
    with a session whose candidate is gone, approved or rejected in the
    meantime, the session is closed and the user gets the notice. *)
Theorem message_without_candidate W st user_id text :
  (∀ article_id, editing st !! user_id = Some article_id →
     pending st !! article_id = None) →
  let after := handle_message W st user_id text in
  pending (state after) = pending st
  ∧ published (state after) = published st
  ∧ editing (state after) = delete user_id (editing st)
  ∧ raised after = None
  ∧ (editing st !! user_id = None → state after = st ∧ replies after = [])
  ∧ (is_Some (editing st !! user_id) → replies after = [NoLongerAvailable]).
Proof.
  intros Hgone after. subst after. unfold handle_message.
  destruct (editing st !! user_id) as [article_id|] eqn:He.
  - cbn [pending published editing]. rewrite (Hgone article_id eq_refl).
    cbn. by repeat split.
  - cbn. rewrite delete_id by done. by repeat split.
Qed.
End FrontEndProps.

Section SlugProps.
Context `{PyRuntime}.
Import bot.

Lemma Forall_sub_runs_from (P : N → Prop) p rep b (s : pystr) :
  Forall P rep → Forall (λ c, p c = false → P c) s →
  Forall P (sub_runs_from p rep b s).
Proof.
  intros Hrep Hs. revert b.
  induction Hs as [|c s Hc Hs IH]; intros b; simpl; [done|].
  destruct (p c) eqn:E.
  - destruct b; [apply IH|]. apply Forall_app. split; [done|apply IH].
  - constructor; [by apply Hc|apply IH].
Qed.

Lemma rstrip_head p (s : pystr) c :
  head (rstrip p s) = Some c → head s = Some c.
Proof.
  destruct (rstrip_prefix p s) as [suf Hsuf].
  destruct (rstrip p s) as [|d r]; [done|]. intros [= ->].
  by rewrite Hsuf.
Qed.

Lemma single_hyphens_take n (s : pystr) :
  single_hyphens s = true → single_hyphens (take n s) = true.
Proof.
  intros Hs. rewrite <- (take_drop n s) in Hs.
  by apply single_hyphens_app in Hs as [Hs _].
Qed.

Lemma single_hyphens_strip p (s : pystr) :
  single_hyphens s = true → single_hyphens (strip p s) = true.
Proof.
  intros Hs. unfold strip.
  destruct (rstrip_prefix p (lstrip p s)) as [suf H2].
  destruct (drop_while_suffix p s) as [pre H3]. fold (lstrip p s) in H3.
  rewrite H3 in Hs. apply single_hyphens_app in Hs as [_ Hs].
  rewrite H2 in Hs. by apply single_hyphens_app in Hs as [Hs _].
Qed.

Lemma slug_like_hyphen : slug_like hyphen.
Proof. unfold slug_like. split; [done|]. split; [done|by right]. Qed.

Lemma slugify_chars (text : pystr) : Forall slug_like (slugify text).
Proof.
  unfold slugify. apply Forall_strip, Forall_take.
  apply Forall_sub_runs_from; [repeat constructor; apply slug_like_hyphen|].
  apply Forall_impl with (P := slug_like); [|done].
  apply Forall_sub_runs_from; [repeat constructor; apply slug_like_hyphen|].
  unfold delete_chars. apply Forall_forall. intros c Hc.
  apply list_elem_of_In, filter_In in Hc as [_ Hc].
  rewrite negb_involutive in Hc. intros Hp.
  apply orb_false_iff in Hp as [Hs Hu].
  split; [done|]. split; [by apply N.eqb_neq in Hu|].
  rewrite Hs, orb_false_r in Hc.
  apply orb_true_iff in Hc as [Hc|Hc]; [by left|right].
  by apply N.eqb_eq in Hc.
Qed.

Lemma slugify_ends (text : pystr) :
  head (slugify text) ≠ Some hyphen ∧ last (slugify text) ≠ Some hyphen.
Proof.
  unfold slugify. split.
  - intros Hh. apply rstrip_head, drop_while_head in Hh. done.
  - intros Hl. by apply rstrip_last in Hl.
Qed.

(** The slug is made of characters of the lower-cased text and of
    hyphens. *)
Lemma slugify_from_text (P : N → Prop) (text : pystr) :
  P hyphen → Forall P (str_lower text) → Forall P (slugify text).
Proof.
  intros Hh Ht. unfold slugify. apply Forall_strip, Forall_take.
  apply Forall_sub_runs_from; [by repeat constructor|].
  apply Forall_impl with (P := P); [|done].
  apply Forall_sub_runs_from; [by repeat constructor|].
  apply Forall_impl with (P := P); [|done].
  unfold delete_chars. apply Forall_forall. intros c Hc.
  apply list_elem_of_In, filter_In in Hc as [Hc _].
  apply list_elem_of_In in Hc. revert c Hc. apply Forall_forall.
  by apply Forall_strip.
Qed.

(** X12. The slug of a text, whatever the text: at most 60 characters, each a
    word character other than the underscore or a hyphen, no white space,
    no two hyphens in a row, and no hyphen at either end. *)
Theorem slugify_shape (text : pystr) :
  (length (slugify text) ≤ 60)%nat
  ∧ Forall slug_like (slugify text)
  ∧ single_hyphens (slugify text) = true
  ∧ head (slugify text) ≠ Some hyphen
  ∧ last (slugify text) ≠ Some hyphen.
Proof.
  split; [|split; [apply slugify_chars|split; [|apply slugify_ends]]].
  - unfold slugify. set (merged := sub_runs is_hyphen [hyphen] _).
    unfold strip.
    destruct (rstrip_prefix is_hyphen (lstrip is_hyphen (take 60 merged)))
      as [suf Hsuf].
    destruct (drop_while_suffix is_hyphen (take 60 merged)) as [pre Hpre].
    fold (lstrip is_hyphen (take 60 merged)) in Hpre.
    assert (length (take 60 merged) ≤ 60)%nat as Hle
      by (rewrite length_take; lia).
    rewrite Hpre, Hsuf, !length_app in Hle. lia.
  - unfold slugify. apply single_hyphens_strip, single_hyphens_take.
    by destruct (single_hyphens_sub_runs is_hyphen false
                   (sub_runs (λ c, is_space c || (c =? underscore)) [hyphen]
                      (delete_chars
                         (λ c, negb (is_word c || is_space c || is_hyphen c))
                         (strip is_space (str_lower text))))).
Qed.
End SlugProps.

Section ScrapeRunProps.
Context `{PyRuntime}.
Import publish_remote bot.





Lemma send_candidates_app clk (pre post : list dict) : ∀ st st1 sent,
  send_candidates clk st pre = (st1, sent, None) →
  send_candidates clk st (pre ++ post)
  = let '(st2, sent2, e) := send_candidates clk st1 post in
    (st2, sent ++ sent2, e).
Proof.
  induction pre as [|c pre IH]; intros st st1 sent; cbn [send_candidates app].
  { intros [= <- <-]. by destruct (send_candidates clk st post) as [[? ?] ?]. }
  set (article_id := if truthy (get_none (lit "id") c) then _ else _).
  destruct article_id as [[| | | |article_id| |]|e]; try done.
  set (stored := dict_set (lit "id") (VStr article_id) c).
  set (st0 := with_pending st (<[article_id := stored]> (pending st))).
  destruct (format_candidate stored) as [text|e]; [|done].
  destruct (send_candidates clk st0 pre) as [[st' sent'] e'] eqn:Epre.
  intros [= -> <- ->].
  rewrite (IH st0 st1 sent' Epre).
  by destruct (send_candidates clk st1 post) as [[? ?] ?].
Qed.

(** The review message does not depend on the identifier. *)
Lemma format_candidate_ignores_id (c : dict) v :
  format_candidate (dict_set (lit "id") v c) = format_candidate c.
Proof.
  unfold format_candidate, get_or.
  by rewrite !dict_get_set_ne by done.
Qed.

(** X14. A candidate whose review message cannot be formatted ends the run: the
    candidates before it are announced, it is put into the store without
    being announced, the admin gets the error notice, and the candidates
    after it are neither stored nor announced. *)
Theorem run_scrape_stops_at_first_failure W st (pre post : list dict)
    (c : dict) st1 sent title e :
  send_candidates (now W) st pre = (st1, sent, None) →
  dict_get (lit "id") c = None →
  dict_get (lit "title") c = Some (VStr title) →
  format_candidate c = Raise e →
  let id := strftime_ymd (now W) ++ [hyphen] ++ slugify title in
  run_scrape W st (Ok (pre ++ c :: post))
  = {| state := with_pending st1
                  (<[id := dict_set (lit "id") (VStr id) c]> (pending st1));
       replies := ScrapeFound (length (pre ++ c :: post))
                  :: sent ++ [ScrapeError];
       raised := None |}.
Proof.
  intros Hpre Hid Htitle Hfmt id. unfold run_scrape.
  destruct (pre ++ c :: post) as [|c0 cs] eqn:Ecs.
  { by destruct pre. }
  rewrite <- Ecs. rewrite (send_candidates_app _ _ _ _ _ _ Hpre).
  cbn [send_candidates]. unfold get_none, get_or. rewrite Hid, Htitle.
  cbn [truthy make_article_id as_str mbind result_bind].
  fold id. rewrite format_candidate_ignores_id, Hfmt. by rewrite app_nil_r.
Qed.
End ScrapeRunProps.

(** * Further properties: the remote publisher *)

Section RemoteProps.
Context `{PyRuntime}.
Import publish_remote bot.

Lemma failure_not_success message v :
  dict_get (lit "success") (failure message) = Some v → truthy v = false.
Proof. unfold failure. lookup_keys. by intros [= <-]. Qed.

(** X15. A report of success is backed by an accepted write: when
    [publish_to_github] returns a dict whose ["success"] is truthy, the
    token and the repository are set, exactly one look-up and one write were
    sent, both to the URL of the path that the dict names, and the write
    was answered with 200 or 201. *)
Theorem publish_success_means_accepted_write W article (res : dict) v :
  returned (publish_to_github W article) = Ok res →
  dict_get (lit "success") res = Some v → truthy v = true →
  GITHUB_TOKEN W ≠ [] ∧ GITHUB_REPO W ≠ []
  ∧ ∃ file_path payload resp,
      sent (publish_to_github W article)
      = [GET (contents_url W file_path); PUT (contents_url W file_path) payload]
      ∧ requests_put W (contents_url W file_path) payload = Ok resp
      ∧ (status_code resp = 200 ∨ status_code resp = 201)%Z
      ∧ dict_get (lit "file_path") res = Some (VStr file_path).
Proof.
  unfold publish_to_github. intros Hret Hget Hv.
  assert (∀ m, Ok (failure m) = Ok res → False) as Hfail.
  { intros m [= <-]. apply failure_not_success in Hget. congruence. }
  destruct (GITHUB_TOKEN W) as [|t token] eqn:Etok;
    [by destruct (Hfail _ Hret)|].
  destruct (GITHUB_REPO W) as [|r repo] eqn:Erepo;
    [by destruct (Hfail _ Hret)|].
  cbn [truthy negb] in *.
  split; [done|]. split; [done|].
  destruct (validate_category article) as [category art0]. cbn in Hret |- *.
  destruct (ensure_id (now W) art0) as [art|e]; [|done].
  destruct (generate_mdx (ensure_date (now W) art)) as [mdx|e]; [|done].
  set (file_path := lit "content/" ++ _) in *.
  destruct (get_existing_file_sha W file_path) as [sha|e]; [|done].
  destruct (build_payload W _ mdx sha) as [payload|e]; [|done].
  destruct (requests_put W _ payload) as [resp|e] eqn:Eput; [|done].
  cbn in Hret |- *. exists file_path, payload, resp.
  split; [done|]. split; [done|].
  unfold report in Hret.
  destruct ((status_code resp =? 200)%Z || (status_code resp =? 201)%Z)
    eqn:Est.
  - split; [apply orb_true_iff in Est as [E|E]; apply Z.eqb_eq in E; auto|].
    destruct (json resp) as [body|]; [|done]. cbn in Hret.
    destruct (obj_get (lit "content") (VDict []) body) as [content|]; [|done].
    cbn in Hret.
    destruct (obj_get (lit "html_url") (VStr []) content) as [file_url|];
      [|done].
    cbn in Hret.
    destruct (subscript (lit "title") _) as [title|]; [|done].
    cbn in Hret. injection Hret as <-. by lookup_keys.
  - destruct (json resp) as [body|]; [|done]. cbn in Hret.
    destruct (obj_get (lit "message") _ body) as [error|]; [|done].
    cbn in Hret. by destruct (Hfail _ Hret).
Qed.

Lemma filter_all (f : N → bool) (s : pystr) :
  Forall (λ c, f c = true) s → List.filter f s = s.
Proof.
  induction 1 as [|c s Hc Hs IH]; simpl; [done|]. by rewrite Hc, IH.
Qed.

Lemma sub_runs_from_none p rep b (s : pystr) :
  Forall (λ c, p c = false) s → sub_runs_from p rep b s = s.
Proof.
  intros Hs. revert b.
  induction Hs as [|c s Hc Hs IH]; intros b; simpl; [done|].
  by rewrite Hc, IH.
Qed.

Lemma drop_while_none p (s : pystr) :
  (∀ c, head s = Some c → p c = false) → drop_while p s = s.
Proof.
  destruct s as [|c s]; simpl; [done|]. intros Hc. by rewrite (Hc c).
Qed.

Lemma rstrip_none p (s : pystr) :
  (∀ c, last s = Some c → p c = false) → rstrip p s = s.
Proof.
  intros Hl. unfold rstrip. rewrite drop_while_none; [apply rev_involutive|].
  intros c Hc. apply Hl. rewrite <- (rev_involutive s).
  rewrite rev_alt at 1. fold (reverse (rev s)). by rewrite last_reverse.
Qed.

Lemma not_hyphen c : c ≠ hyphen → is_hyphen c = false.
Proof. intros Hc. by apply N.eqb_neq. Qed.

Lemma forallb_of_Forall (f : N → bool) (s : pystr) :
  Forall (λ c, f c = true) s → forallb f s = true.
Proof.
  induction 1 as [|c s Hc Hs IH]; simpl; [done|]. by rewrite Hc, IH.
Qed.

Lemma slug_chars_forallb_ascii (s : pystr) :
  Forall (λ c, is_slug_char c = true) s → forallb is_ascii s = true.
Proof.
  induction 1 as [|c s Hc Hs IH]; simpl; [done|].
  by rewrite (slug_char_ascii _ Hc), IH.
Qed.

Lemma slug_char_lower c : is_slug_char c = true → ascii_lower_char c = c.
Proof.
  unfold ascii_lower_char, is_upper_AZ, is_slug_char, is_az09, is_lower_az,
    is_digit, is_hyphen, in_range, hyphen.
  destruct ((65 <=? c) && (c <=? 90)) eqn:E; [|done].
  rewrite !orb_true_iff, !andb_true_iff, !N.leb_le, N.eqb_eq. intros Hc.
  apply andb_true_iff in E. rewrite !N.leb_le in E. lia.
Qed.

Section AsciiNormal.
(** NFKD leaves ASCII text as it is. *)
Hypothesis nfkd_ascii : ∀ s, forallb is_ascii s = true → nfkd s = s.

(** An identifier of [a-z], [0-9] and [-] that neither starts nor ends
    with a hyphen is left alone. *)
Lemma sanitize_id_clean (id : pystr) :
  Forall (λ c, is_slug_char c = true) id →
  head id ≠ Some hyphen → last id ≠ Some hyphen →
  sanitize_id id = id.
Proof.
  intros Hs Hh Hl. unfold sanitize_id, ascii_fold, sub_runs.
  pose proof (slug_chars_forallb_ascii _ Hs) as Hascii.
  rewrite (nfkd_ascii _ Hascii).
  rewrite filter_all
    by (eapply Forall_impl; [exact Hs|apply slug_char_ascii]).
  rewrite (str_lower_ascii _ Hascii).
  assert (map ascii_lower_char id = id) as ->.
  { clear Hh Hl Hascii. induction Hs as [|c s Hc Hs IH]; simpl; [done|].
    by rewrite (slug_char_lower _ Hc), IH. }
  rewrite sub_runs_from_none.
  2: { eapply Forall_impl; [exact Hs|]. intros c Hc. cbn beta.
       unfold is_slug_char in Hc. by rewrite Hc. }
  assert (strip is_hyphen id = id) as ->.
  { unfold strip, lstrip. rewrite drop_while_none.
    - apply rstrip_none. intros c Hc. apply not_hyphen. congruence.
    - intros c Hc. apply not_hyphen. congruence. }
  apply rstrip_none. intros c Hc. apply not_hyphen. congruence.
Qed.

(** X16. Sanitizing an identifier twice is sanitizing it once: an article that
    is published again under the identifier that the publisher gave it goes
    to the same document. *)
Theorem sanitize_id_idempotent (old_id : pystr) :
  sanitize_id (sanitize_id old_id) = sanitize_id old_id.
Proof.
  destruct (sanitize_id_shape old_id) as [Hs Hl].
  apply sanitize_id_clean; [done| |done].
  unfold sanitize_id, strip. intros Hh.
  apply rstrip_head, rstrip_head, drop_while_head in Hh. done.
Qed.

(** X17. The identifier that the bot makes of an ASCII title with a slug that
    is not empty is one that the publisher leaves alone: the candidate is
    published under the identifier of its buttons. *)
Theorem bot_id_survives_publisher clk (title : pystr) :
  Forall (λ c, is_ascii c = true) title → slugify title ≠ [] →
  ∀ id, make_article_id clk (VStr title) = Ok id → sanitize_id id = id.
Proof.
  intros Hascii Hne id Hid.
  change (Ok (strftime_ymd clk ++ [hyphen] ++ slugify title) = Ok id) in Hid.
  assert (strftime_ymd clk ++ [hyphen] ++ slugify title = id) as <-
    by congruence.
  clear Hid.
  assert (Forall (λ c, is_ascii c = true ∧ is_upper_AZ c = false)
            (slugify title)) as Hlow.
  { apply slugify_from_text; [done|].
    rewrite str_lower_ascii by (by apply forallb_of_Forall).
    apply Forall_map. eapply Forall_impl; [exact Hascii|].
    intros c Hc. cbn beta. unfold ascii_lower_char.
    destruct (is_upper_AZ c) eqn:E; [|done].
    revert E Hc.
    unfold is_upper_AZ, is_ascii, in_range.
    rewrite !andb_true_iff, !andb_false_iff, !N.leb_le, !N.leb_gt, !N.ltb_lt.
    lia. }
  assert (Forall (λ c, is_slug_char c = true) (slugify title)) as Hslug.
  { pose proof (slugify_chars title) as Hlike.
    apply Forall_forall. intros c Hc.
    pose proof (proj1 (Forall_forall _ _) Hlow c Hc) as [Ha Hu].
    pose proof (proj1 (Forall_forall _ _) Hlike c Hc) as (_ & Hund & Hw).
    unfold is_slug_char. destruct Hw as [Hw| ->]; [|done].
    unfold is_word in Hw. rewrite Ha, Hu in Hw.
    apply N.eqb_neq in Hund. rewrite Hund in Hw.
    unfold is_az09. rewrite orb_false_r in Hw.
    rewrite <- orb_assoc in Hw. cbn in Hw.
    by rewrite Hw. }
  apply sanitize_id_clean.
  - apply Forall_app. split; [apply strftime_slug|].
    apply Forall_app. split; [by repeat constructor|done].
  - change (Some (digit_char (clk_year clk / 1000)) ≠ Some hyphen).
    unfold digit_char, hyphen. intros [= E]. revert E.
    generalize ((clk_year clk / 1000) mod 10). lia.
  - rewrite !app_assoc. destruct (slugify_ends title) as [_ Hl].
    destruct (slugify title) as [|c s _] using rev_ind; [done|].
    rewrite app_assoc, last_snoc. by rewrite last_snoc in Hl.
Qed.
End AsciiNormal.
End RemoteProps.

(** * Further properties: the maintenance commands *)

Section AdminProps.
Context `{PyRuntime}.
Import publish_remote publish_remote_admin.

(** X18. Deleting is guarded by the look-up: a [DELETE] is sent only for a
    document that the look-up found, to the URL that was looked up and with
    the [sha] that the look-up gave; and a truthy ["success"] is returned
    only when that request was answered with 200. *)
Theorem delete_article_needs_found_document W requests_delete
    (category article_id : pystr) :
  let D := delete_article W requests_delete category article_id in
  let file_path :=
    lit "content/" ++ category ++ lit "/" ++ article_id ++ lit ".mdx" in
  looked_up D = [contents_url W file_path]
  ∧ (∀ url payload, (url, payload) ∈ deleted D →
       ∃ sha, get_existing_file_sha W file_path = Ok sha
              ∧ truthy sha = true
              ∧ deleted D = [(url, payload)]
              ∧ url = contents_url W file_path
              ∧ dict_get (lit "sha") payload = Some sha
              ∧ dict_get (lit "branch") payload
                = Some (VStr (GITHUB_BRANCH W)))
  ∧ (∀ (res : dict) v, answer D = Ok res →
       dict_get (lit "success") res = Some v → truthy v = true →
       ∃ payload resp,
         deleted D = [(contents_url W file_path, payload)]
         ∧ requests_delete (contents_url W file_path) payload = Ok resp
         ∧ status_code resp = 200%Z).
Proof.
  intros D file_path. subst D. unfold delete_article. fold file_path.
  destruct (get_existing_file_sha W file_path) as [sha|e] eqn:Esha; cbn.
  2: { split; [done|]. split; [intros * Hin; by apply elem_of_nil in Hin|].
       done. }
  destruct (truthy sha) eqn:Et; cbn.
  2: { split; [done|]. split; [intros * Hin; by apply elem_of_nil in Hin|].
       intros res v [= <-]. lookup_keys. by intros [= <-]. }
  set (payload := [(lit "message", _); _; _]).
  assert (dict_get (lit "sha") payload = Some sha) as Hsha by done.
  assert (dict_get (lit "branch") payload = Some (VStr (GITHUB_BRANCH W)))
    as Hbranch by done.
  destruct (requests_delete (contents_url W file_path) payload)
    as [resp|e] eqn:Edel; cbn.
  - split; [done|]. split.
    + intros url pl Hin. apply list_elem_of_singleton in Hin.
      injection Hin as -> ->. by exists sha.
    + intros res v Hres Hget Hv. exists payload, resp.
      split; [done|]. split; [done|].
      destruct (status_code resp =? 200)%Z eqn:Est; [by apply Z.eqb_eq|].
      destruct (json resp) as [body|]; [|done]. cbn in Hres.
      destruct (obj_get (lit "message") _ body) as [error|]; [|done].
      cbn in Hres. injection Hres as <-. revert Hget. lookup_keys.
      intros [= <-]. done.
  - split; [done|]. split; [|done].
    intros url pl Hin. apply list_elem_of_singleton in Hin.
    injection Hin as -> ->. by exists sha.
Qed.

Lemma list_items_paths (cat : pystr) (items : list value) :
  ∀ paths, list_items cat items = Ok paths →
  ∀ p, p ∈ paths →
    ∃ name, p = cat ++ lit "/" ++ name
            ∧ ends_with (lit ".mdx") name = true
            ∧ ∃ item, item ∈ items
                      ∧ obj_subscript (lit "name") item = Ok (VStr name).
Proof.
  induction items as [|item rest IH]; intros paths; cbn [list_items].
  { intros [= <-] p Hp. by apply elem_of_nil in Hp. }
  destruct (obj_subscript (lit "name") item) as [name|] eqn:Ename; [|done].
  cbn [mbind result_bind].
  destruct name as [| | | |name| |]; try done. cbn [as_str mbind result_bind].
  destruct (list_items cat rest) as [found|] eqn:Erest; [|done].
  cbn [mbind result_bind].
  assert (∀ p, p ∈ found →
            ∃ name0, p = cat ++ lit "/" ++ name0
                     ∧ ends_with (lit ".mdx") name0 = true
                     ∧ ∃ item0, item0 ∈ item :: rest
                         ∧ obj_subscript (lit "name") item0
                           = Ok (VStr name0)) as Hfound.
  { intros p Hp. destruct (IH found eq_refl p Hp)
      as (name0 & -> & Hend & item0 & Hin & Hname).
    exists name0. split; [done|]. split; [done|].
    exists item0. split; [by apply elem_of_cons; right|done]. }
  destruct (ends_with (lit ".mdx") name) eqn:Eend; intros [= <-] p Hp;
    [|by apply Hfound].
  apply elem_of_cons in Hp as [->|Hp]; [|by apply Hfound].
  exists name. split; [done|]. split; [done|].
  exists item. split; [by apply elem_of_cons; left|done].
Qed.

Lemma mapM_Ok_elem {A B} (f : A → result B) (l : list A) (out : list B) :
  mapM f l = Ok out → ∀ y, y ∈ out → ∃ x, x ∈ l ∧ f x = Ok y.
Proof.
  revert out. induction l as [|x l IH]; intros out; cbn.
  { intros [= <-] y Hy. by apply elem_of_nil in Hy. }
  destruct (f x) as [y0|] eqn:Ex; [|done]. cbn.
  destruct (mapM f l) as [ys|] eqn:El; [|done]. cbn.
  intros [= <-] y Hy. apply elem_of_cons in Hy as [->|Hy].
  - exists x. split; [by apply elem_of_cons; left|done].
  - destruct (IH ys eq_refl y Hy) as (x0 & Hin & Hx0).
    exists x0. split; [by apply elem_of_cons; right|done].
Qed.

(** X19. Every path that [list_articles] returns is [<category>/<name>] for one
    of the seven categories and a name that ends in [.mdx], and the name is
    that of an item of the listing of that category, which was answered
    with 200. *)
Theorem list_articles_paths W (paths : list pystr) :
  list_articles W = Ok paths →
  ∀ p, p ∈ paths →
    ∃ cat name resp items,
      p = cat ++ lit "/" ++ name
      ∧ cat ∈ VALID_CATEGORIES
      ∧ ends_with (lit ".mdx") name = true
      ∧ requests_get W (GITHUB_API ++ lit "/repos/" ++ GITHUB_REPO W
                        ++ lit "/contents/content/" ++ cat) = Ok resp
      ∧ status_code resp = 200%Z
      ∧ (body ← json resp; iterate body) = Ok items
      ∧ ∃ item, item ∈ items
                ∧ obj_subscript (lit "name") item = Ok (VStr name).
Proof.
  unfold list_articles. intros Hlist p Hp.
  destruct (mapM (list_category W) VALID_CATEGORIES) as [found|] eqn:Efound;
    [|done].
  cbn in Hlist. injection Hlist as <-.
  apply list_elem_of_In, in_concat in Hp as (ps & Hps & Hp).
  apply list_elem_of_In in Hps, Hp.
  destruct (mapM_Ok_elem _ _ _ Efound ps Hps) as (cat & Hcat & Hlc).
  unfold list_category in Hlc.
  destruct (requests_get W _) as [resp|] eqn:Eget; [|done].
  cbn [mbind result_bind] in Hlc.
  destruct (status_code resp =? 200)%Z eqn:Est.
  2: { injection Hlc as <-. by apply elem_of_nil in Hp. }
  destruct (json resp) as [body|] eqn:Ejson; [|done].
  cbn [mbind result_bind] in Hlc.
  destruct (iterate body) as [items|] eqn:Eit; [|done].
  cbn [mbind result_bind] in Hlc.
  destruct (list_items_paths cat items ps Hlc p Hp)
    as (name & -> & Hend & item & Hin & Hname).
  exists cat, name, resp, items.
  split; [done|]. split; [done|]. split; [done|]. split; [done|].
  split; [by apply Z.eqb_eq|]. split; [|by exists item].
  by rewrite Ejson.
Qed.
End AdminProps.

(** * Further properties: the local publisher *)

Section LocalProps.
Context `{PyRuntime}.
Import publish.

(** X20. [publish_article] returns [True] exactly when the project directory is
    there, the article was written to the temporary file, the add-article
    script exited with 0 and, if a push is asked for and enabled, the title
    could be cut and none of the three git commands raised.  The exit
    codes of the git commands play no part. *)
Theorem publish_article_returns_true_iff M (article_data : dict) push :
  returned (publish_article M article_data push) = true
  ↔ project_dir_exists M = true
    ∧ dump_ok M = true
    ∧ run M AddArticle = Some 0%Z
    ∧ (push && GIT_AUTO_PUSH M = true →
         ∃ title_short,
           slice_to 60 (get_or (lit "title") (VStr (lit "article"))
                          article_data) = Ok title_short
           ∧ Forall (λ c, is_Some (run M c)) (git_commands M title_short)).
Proof.
  unfold publish_article, git_commands.
  destruct (project_dir_exists M); cbn [negb]; [|cbn; by intuition].
  destruct (dump_ok M); cbn [negb]; [|cbn; by intuition].
  destruct (run M AddArticle) as [code|]; [|cbn; by intuition].
  destruct (code =? 0)%Z eqn:Ecode; cbn [negb].
  2: { cbn. apply Z.eqb_neq in Ecode. split; [done|].
       intros (_ & _ & [= ->] & _). done. }
  apply Z.eqb_eq in Ecode. subst code.
  destruct (push && GIT_AUTO_PUSH M); [|cbn; by intuition].
  destruct (slice_to 60 _) as [title_short|e] eqn:Eslice.
  2: { cbn. split; [done|]. intros (_ & _ & _ & Hgit).
       by destruct (Hgit eq_refl) as (? & ? & _). }
  destruct (run M GitAdd) as [c1|] eqn:E1.
  2: { cbn. split; [done|]. intros (_ & _ & _ & Hgit).
       destruct (Hgit eq_refl) as (t & [= <-] & Hall).
       apply Forall_cons in Hall as [Hadd _]. rewrite E1 in Hadd.
       by destruct Hadd. }
  destruct (run M (GitCommit _)) as [c2|] eqn:E2.
  2: { cbn. split; [done|]. intros (_ & _ & _ & Hgit).
       destruct (Hgit eq_refl) as (t & [= <-] & Hall).
       apply Forall_cons in Hall as [_ Hall].
       apply Forall_cons in Hall as [Hc _]. rewrite E2 in Hc.
       by destruct Hc. }
  destruct (run M (GitPush _ _)) as [c3|] eqn:E3.
  2: { cbn. split; [done|]. intros (_ & _ & _ & Hgit).
       destruct (Hgit eq_refl) as (t & [= <-] & Hall).
       apply Forall_cons in Hall as [_ Hall].
       apply Forall_cons in Hall as [_ Hall].
       apply Forall_cons in Hall as [Hp _]. rewrite E3 in Hp.
       by destruct Hp. }
  cbn. split; [|done]. intros _.
  split; [done|]. split; [done|]. split; [done|]. intros _.
  exists title_short. split; [done|].
  repeat constructor; by rewrite ?E1, ?E2, ?E3.
Qed.

(** X21. What [publish_article] runs and leaves: the temporary file is
    unlinked whenever it was created; the add-article script comes first;
    git commands follow only after it exited with 0 and only when a push
    is asked for and enabled, in the order add, commit, push. *)
Theorem publish_article_commands M (article_data : dict) push :
  let P := publish_article M article_data push in
  tmp_unlinked P = tmp_created P
  ∧ (tmp_created P = project_dir_exists M)
  ∧ (ran P = []
     ∨ ran P = [AddArticle]
     ∨ run M AddArticle = Some 0%Z ∧ push = true ∧ GIT_AUTO_PUSH M = true
       ∧ ∃ title_short cmds,
           slice_to 60 (get_or (lit "title") (VStr (lit "article"))
                          article_data) = Ok title_short
           ∧ ran P = AddArticle :: cmds
           ∧ cmds `prefix_of` git_commands M title_short).
Proof.
  intros P. subst P. unfold publish_article, git_commands.
  destruct (project_dir_exists M); cbn [negb]; [|cbn; by auto].
  destruct (dump_ok M); cbn [negb]; [|cbn; by auto].
  destruct (run M AddArticle) as [code|]; [|cbn; by auto].
  destruct (code =? 0)%Z eqn:Ecode; cbn [negb]; [|cbn; by auto].
  apply Z.eqb_eq in Ecode. subst code.
  destruct push; cbn [andb]; [|cbn; by auto].
  destruct (GIT_AUTO_PUSH M); [|cbn; by auto].
  destruct (slice_to 60 _) as [title_short|e] eqn:Eslice; [|cbn; by auto].
  assert (∀ cmds ok,
            cmds `prefix_of` [GitAdd;
                              GitCommit (lit "Add article: " ++ fmt title_short);
                              GitPush (GIT_REMOTE M) (GIT_BRANCH M)] →
            tmp_unlinked (finished (AddArticle :: cmds) ok)
            = tmp_created (finished (AddArticle :: cmds) ok)
            ∧ tmp_created (finished (AddArticle :: cmds) ok) = true
            ∧ (ran (finished (AddArticle :: cmds) ok) = []
               ∨ ran (finished (AddArticle :: cmds) ok) = [AddArticle]
               ∨ Some 0%Z = Some 0%Z ∧ true = true ∧ true = true
                 ∧ ∃ t cs, Ok title_short = Ok t
                     ∧ ran (finished (AddArticle :: cmds) ok)
                       = AddArticle :: cs
                     ∧ cs `prefix_of` [GitAdd;
                            GitCommit (lit "Add article: " ++ fmt t);
                            GitPush (GIT_REMOTE M) (GIT_BRANCH M)])) as Hfin.
  { intros cmds ok Hpre. split; [done|]. split; [done|]. right. right.
    split; [done|]. split; [done|]. split; [done|].
    exists title_short, cmds. by repeat split. }
  destruct (run M GitAdd) as [c1|].
  2: { apply (Hfin [GitAdd]). by eexists [_; _]. }
  destruct (run M (GitCommit _)) as [c2|].
  2: { apply (Hfin [GitAdd; _]). by eexists [_]. }
  destruct (run M (GitPush _ _)) as [c3|].
  - apply (Hfin [GitAdd; _; _]). by exists [].
  - apply (Hfin [GitAdd; _; _]). by exists [].
Qed.
End LocalProps.

(** * Further properties: the document generator *)

Section DocumentProps.
Context `{PyRuntime}.
Import publish_remote bot.

Lemma bind_Ok {A B} (m : result A) (k : A → result B) y :
  m ≫= k = Ok y → ∃ a, m = Ok a ∧ k a = Ok y.
Proof. destruct m as [a|e]; [|done]. intros Hk. by exists a. Qed.

Lemma as_str_Ok v s : as_str v = Ok s → v = VStr s.
Proof. destruct v; try done. by intros [= ->]. Qed.

Lemma generate_mdx_publishable (data : dict) :
  publishable data → ∃ mdx, generate_mdx data = Ok mdx.
Proof.
  intros ([id Hid] & [title Htitle] & [category Hcat] & [date Hdate]
          & [excerpt Hexc] & [source Hsrc] & (image & Himg & [alt Halt])
          & Htags & Hgeo & [content Hcontent]).
  unfold generate_mdx, subscript.
  unfold get_none, get_or in Htitle, Hexc.
  destruct (dict_get (lit "title") data) as [t|]; [|done]. subst t.
  destruct (dict_get (lit "excerpt") data) as [e|]; [|done]. subst e.
  rewrite Hid, Hcat, Hdate, Hsrc, Himg, Hcontent.
  cbn [mbind result_bind as_str obj_get]. rewrite Halt.
  cbn [mbind result_bind as_str].
  destruct (get_or (lit "tags") (VList []) data) as [| | | |s|l|d];
    try done; cbn [iterate mbind result_bind].
  all: destruct Hgeo as [Hfalsy|(g & Hg & Hlat)];
    [rewrite Hfalsy; cbn; by eexists|].
  all: rewrite Hg; destruct g as [|kv g];
    [cbn; by eexists|].
  all: cbn [truthy obj_get mbind result_bind andb].
  all: destruct Hlat as [Hnone|[lon Hlon]];
    [rewrite Hnone; cbn; by eexists|].
  all: destruct (get_or (lit "lat") VNone (kv :: g)) as [| | | | | |] eqn:Elat;
    cbn [is_none negb mbind result_bind obj_get obj_subscript];
    try (by eexists).
  all: unfold subscript; rewrite Hlon.
  all: unfold get_or in Elat;
    destruct (dict_get (lit "lat") (kv :: g)) as [lat|]; [|done].
  all: cbn; by eexists.
Qed.

(** X22. [generate_mdx] returns a document exactly for the publishable
    articles; for every other article it raises. *)
Theorem generate_mdx_returns_iff_publishable (data : dict) :
  (∃ mdx, generate_mdx data = Ok mdx) ↔ publishable data.
Proof.
  split; [|apply generate_mdx_publishable].
  intros [mdx Hm]. unfold generate_mdx, subscript in Hm.
  unfold publishable, get_none.
  unfold get_or at 1 2.
  destruct (dict_get (lit "id") data) as [id|]; [|done].
  cbn [mbind result_bind] in Hm.
  destruct (dict_get (lit "title") data) as [[| | | |title| |]|]; try done.
  cbn [mbind result_bind as_str] in Hm.
  destruct (dict_get (lit "category") data) as [category|]; [|done].
  cbn [mbind result_bind] in Hm.
  destruct (dict_get (lit "date") data) as [date|]; [|done].
  cbn [mbind result_bind] in Hm.
  destruct (dict_get (lit "excerpt") data) as [[| | | |excerpt| |]|];
    try done.
  cbn [mbind result_bind as_str] in Hm.
  destruct (get_or (lit "source") (VDict []) data) as [| | | | | |source];
    try done.
  cbn [mbind result_bind obj_get] in Hm.
  destruct (get_or (lit "image") (VDict []) data) as [| | | | | |image];
    try done.
  cbn [mbind result_bind obj_get] in Hm.
  destruct (get_or (lit "alt") (VStr (lit "Article image")) image)
    as [| | | |alt| |] eqn:Ealt; try done.
  cbn [mbind result_bind as_str] in Hm.
  destruct (iterate (get_or (lit "tags") (VList []) data)) as [tag_items|]
    eqn:Etags; [|done].
  cbn [mbind result_bind] in Hm.
  split; [done|]. split; [by eexists|]. split; [done|]. split; [done|].
  split; [by eexists|]. split; [by eexists|].
  split; [exists image; split; [done|]; rewrite Ealt; by eexists|].
  split.
  { destruct (get_or (lit "tags") (VList []) data); done. }
  unfold get_none in Hm.
  apply bind_Ok in Hm as (lat & Hlat & Hm).
  apply bind_Ok in Hm as (geo_lines & Hlines & Hm).
  apply bind_Ok in Hm as (content & Hcontent & _).
  apply as_str_Ok in Hcontent.
  split; [|by eexists].
  destruct (truthy (get_or (lit "geo") VNone data)) eqn:Etruthy;
    [|by left].
  right.
  destruct (get_or (lit "geo") VNone data) as [| | | | | |g] eqn:Egeo;
    try (by rewrite Etruthy in Hlat).
  exists g. split; [done|].
  rewrite Etruthy in Hlat, Hlines. cbn [obj_get andb] in Hlat, Hlines.
  injection Hlat as <-.
  destruct (get_or (lit "lat") VNone g) as [| | | | | |] eqn:Elat;
    [by left|..].
  all: right.
  all: cbn [is_none negb mbind result_bind obj_get obj_subscript] in Hlines.
  all: apply bind_Ok in Hlines as (lat & _ & Hlines).
  all: apply bind_Ok in Hlines as (lon & Hlon & _).
  all: unfold subscript in Hlon.
  all: by destruct (dict_get (lit "lon") g).
Qed.

Lemma publishable_agree (a a' : dict) :
  (∀ k, k ≠ lit "id" → k ≠ lit "date" → dict_get k a' = dict_get k a) →
  is_Some (dict_get (lit "id") a') → is_Some (dict_get (lit "date") a') →
  publishable a → publishable a'.
Proof.
  intros Hsame Hid Hdate. unfold publishable, get_none, get_or.
  rewrite (Hsame (lit "title")), (Hsame (lit "category")),
    (Hsame (lit "excerpt")), (Hsame (lit "source")), (Hsame (lit "image")),
    (Hsame (lit "tags")), (Hsame (lit "geo")), (Hsame (lit "content"))
    by done.
  tauto.
Qed.

(** The publisher gets as far as the look-up with every publishable
    article that has a string for identifier and a category of the fixed
    set, and looks up the document of that category and of the sanitized
    identifier. *)
Lemma publish_reaches_lookup W (article : dict) (id category : pystr) :
  GITHUB_TOKEN W ≠ [] → GITHUB_REPO W ≠ [] →
  dict_get (lit "id") article = Some (VStr id) → id ≠ [] →
  dict_get (lit "category") article = Some (VStr category) →
  category ∈ VALID_CATEGORIES →
  publishable article →
  ∃ rest,
    sent (publish_to_github W article)
    = GET (contents_url W (target_path category (sanitize_id id))) :: rest.
Proof.
  intros Htok Hrepo Hid Hne Hcat Hvalid Hpub. unfold publish_to_github.
  destruct (GITHUB_TOKEN W) as [|t token]; [done|].
  destruct (GITHUB_REPO W) as [|r repo] eqn:Erepo; [done|].
  cbn [truthy str_eqb negb].
  assert (validate_category article = (category, article)) as ->.
  { unfold validate_category, get_or. rewrite Hcat.
    by rewrite (proj2 (in_strs_elem category VALID_CATEGORIES) Hvalid). }
  assert (∃ art, ensure_id (now W) article = Ok art
                 ∧ dict_get (lit "id") art = Some (VStr (sanitize_id id))
                 ∧ ∀ k, k ≠ lit "id" → dict_get k art = dict_get k article)
    as (art & -> & Hart & Hframe).
  { unfold ensure_id, get_none, get_or. rewrite Hid.
    assert (truthy (VStr id) = true) as -> by (by destruct id).
    cbn [negb].
    destruct (str_eqb (sanitize_id id) id) eqn:Es; cbn [negb].
    - exists article. apply str_eqb_eq in Es. rewrite Es. by repeat split.
    - eexists. split; [done|]. split; [apply dict_get_set_eq|].
      intros k Hk. by apply dict_get_set_ne. }
  set (data := ensure_date (now W) art).
  assert (dict_get (lit "id") data = Some (VStr (sanitize_id id))) as Hdata.
  { subst data. by rewrite ensure_date_frame. }
  assert (publishable data) as Hdoc.
  { apply (publishable_agree article); [| | |done].
    - intros k Hk Hd. subst data. rewrite ensure_date_frame by done.
      by apply Hframe.
    - by rewrite Hdata.
    - subst data. unfold ensure_date.
      destruct (negb _) eqn:Ed; [by rewrite dict_get_set_eq|].
      rewrite Hframe by done. by destruct Hpub as (_ & _ & _ & Hdate & _). }
  destruct (generate_mdx_publishable data Hdoc) as [mdx ->].
  unfold get_none, get_or. rewrite Hdata. cbn [fmt].
  fold (target_path category (sanitize_id id)).
  destruct (get_existing_file_sha W _) as [sha|e]; [|by eexists].
  destruct (build_payload W data mdx sha) as [payload|e]; [|by eexists].
  destruct (requests_put W _ payload) as [resp|e]; by eexists.
Qed.

(** X23. Approving a candidate of the rewriter whose title, excerpt and content
    are strings gets as far as the content API: the payload is built, the
    document is generated, and the look-up goes to the document of the
    category of the candidate and of the sanitized identifier. *)
Theorem approved_candidate_reaches_the_api W (entry cand : dict)
    (article_id : pystr) :
  rewritten entry cand →
  is_string (get_none (lit "title") cand) →
  is_string (get_none (lit "excerpt") cand) →
  is_string (get_none (lit "content") cand) →
  article_id ≠ [] → GITHUB_TOKEN W ≠ [] → GITHUB_REPO W ≠ [] →
  ∃ payload category rest,
    article_payload (now W) article_id cand = Ok payload
    ∧ dict_get (lit "category") cand = Some (VStr category)
    ∧ sent (publish_to_github W payload)
      = GET (contents_url W (target_path category (sanitize_id article_id)))
        :: rest.
Proof.
  intros (category & title & excerpt & content & tags & geo & -> & Hcat & _
          & _ & _ & Hgeo).
  intros [t Ht] [e He] [c Hc] Hid Htok Hrepo.
  change (title = VStr t) in Ht. change (excerpt = VStr e) in He.
  change (content = VStr c) in Hc. subst title excerpt content.
  unfold article_payload, get_none, get_or. lookup_keys.
  cbn [obj_get mbind result_bind]. unfold get_or. lookup_keys.
  set (date := if truthy _ then _ else _).
  eexists _, category. 
  edestruct (publish_reaches_lookup W) as [rest Hrest];
    [exact Htok|exact Hrepo| |exact Hid| |exact Hcat| |
     exists rest; split; [reflexivity|split; [reflexivity|exact Hrest]]].
  - by lookup_keys.
  - by lookup_keys.
  - unfold publishable, get_none, get_or. lookup_keys.
    split; [done|]. split; [by eexists|]. split; [done|]. split; [done|].
    split; [by eexists|]. split; [by eexists|].
    split; [eexists; split; [done|]; unfold get_or; lookup_keys; by eexists|].
    split; [done|]. split; [|by eexists].
    destruct Hgeo as [->|(name & lat & lon & cc & ->)]; [by left|].
    right. eexists. split; [done|]. right. by lookup_keys.
Qed.
End DocumentProps.

(** * Further scenarios *)

Section FurtherScenarios.
Import scraper publish_remote bot sample sample_further.

Lemma skipped_source_changes_nothing_witness :
  fetched parse source_down = []
  ∧ scrape_feeds (take 1 sources ++ source_down :: drop 1 sources) seen parse
      (clk_isoformat clk)
    = scrape_feeds (take 1 sources ++ drop 1 sources) seen parse
        (clk_isoformat clk).
Proof.
  split; [by_running|].
  apply (skipped_source_changes_nothing (take 1 sources) source_down
           (drop 1 sources) seen parse (clk_isoformat clk)).
  by_running.
Defined.

Lemma candidates_are_well_formed_witness :
  process_article api_key (Ok answer_bogus) entry geo_map
  = Ok (Some candidate_unlocated)
  ∧ rewritten entry candidate_unlocated.
Proof.
  split; [by_running|].
  apply (candidates_are_well_formed api_key (Ok answer_bogus) entry geo_map).
  by_running.
Defined.


Lemma format_candidate_succeeds_iff_located_witness :
  process_article api_key (Ok answer_located) entry geo_map
  = Ok (Some candidate_located)
  ∧ ∃ text, format_candidate candidate_located = Ok text.
Proof.
  assert (process_article api_key (Ok answer_located) entry geo_map
          = Ok (Some candidate_located)) as Hp by by_running.
  split; [exact Hp|].
  apply (proj2 (format_candidate_succeeds_iff_located api_key
                  (Ok answer_located) entry geo_map candidate_located Hp)).
  discriminate.
Defined.

Lemma buttons_address_their_candidate_witness :
  pending reviewing !! test_id = Some (test_article clk)
  ∧ map (map (λ b, handle_callback store_without reviewing
                     (bot_controls.callback_data b) 7))
      (bot_controls.make_buttons test_id)
    = [[approve store_without reviewing test_id (test_article clk);
        reject reviewing test_id (test_article clk)];
       [edit reviewing 7 test_id (test_article clk)]].
Proof.
  split; [by_running|].
  apply (buttons_address_their_candidate store_without reviewing test_id
           (test_article clk) 7); [by_running|discriminate].
Defined.

Lemma reject_removes_that_candidate_witness :
  let after := handle_callback store_without reviewing
                 (lit "reject_" ++ test_id) 7 in
  pending (state after) = delete test_id (pending reviewing)
  ∧ published (state after) = published reviewing
  ∧ raised after = None.
Proof.
  destruct (reject_removes_that_candidate store_without reviewing test_id
              (test_article clk) 7) as [Hyes _];
    [by_running|discriminate|].
  destruct (Hyes _ eq_refl) as (Hp & Hh & _ & _ & Hr).
  split; [exact Hp|]. split; [exact Hh|exact Hr].
Defined.

Lemma stale_press_changes_nothing_witness :
  let after := handle_callback store_without reviewing
                 (lit "approve_2026-11-03-gone") 7 in
  state after = reviewing ∧ raised after = None.
Proof.
  destruct (stale_press_changes_nothing store_without reviewing
              (lit "approve_2026-11-03-gone") 7) as (Hs & Hr & _).
  - intros action article_id Hsplit. vm_compute in Hsplit.
    injection Hsplit as <- <-. by_running.
  - split; [exact Hs|exact Hr].
Defined.

Lemma edit_then_message_retitles_witness :
  is_Some (dict_get (lit "title") (test_article clk))
  ∧ (let opened := handle_callback store_without reviewing
                     (lit "edit_" ++ test_id) 7 in
     let closed := handle_message store_without (state opened) 7
                     (lit " Fresh title ") in
     editing (state opened) = <[7%Z := test_id]> (editing reviewing)
     ∧ editing (state closed) = delete 7%Z (editing reviewing)
     ∧ published (state closed) = published reviewing).
Proof.
  assert (is_Some (dict_get (lit "title") (test_article clk))) as Ht
    by (eexists; reflexivity).
  split; [exact Ht|].
  destruct (edit_then_message_retitles store_without reviewing test_id
              (test_article clk) 7 (lit " Fresh title "))
    as (_ & Ho & _ & _ & He & Hp); [by_running|discriminate|exact Ht|].
  split; [exact Ho|]. split; [exact He|exact Hp].
Defined.

Lemma message_without_candidate_witness :
  let after := handle_message store_without orphaned 7 (lit "Fresh title") in
  pending (state after) = pending orphaned
  ∧ editing (state after) = delete 7%Z (editing orphaned)
  ∧ replies after = [NoLongerAvailable].
Proof.
  destruct (message_without_candidate store_without orphaned 7
              (lit "Fresh title")) as (Hp & _ & He & _ & _ & Hr).
  - intros article_id Hid. vm_compute in Hid. injection Hid as <-.
    by_running.
  - split; [exact Hp|]. split; [exact He|].
    apply Hr. eexists. reflexivity.
Defined.


Lemma run_scrape_stops_at_first_failure_witness :
  let before := send_candidates clk reviewing [candidate_located] in
  before.2 = None
  ∧ replies (run_scrape store_without reviewing
               (Ok ([candidate_located]
                    ++ candidate_unlocated :: [candidate_located])))
    = ScrapeFound 3 :: before.1.2 ++ [ScrapeError].
Proof.
  intros before. split; [by_running|].
  rewrite (run_scrape_stops_at_first_failure store_without reviewing
             [candidate_located] [candidate_located] candidate_unlocated
             before.1.1 before.1.2 (lit "New title") AttributeError);
    [reflexivity|by_running|by_running|by_running|by_running].
Defined.

Lemma publish_success_means_accepted_write_witness :
  returned (publish_to_github store_without article_bogus)
  = Ok report_created
  ∧ ∃ file_path payload resp,
      sent (publish_to_github store_without article_bogus)
      = [GET (contents_url store_without file_path);
         PUT (contents_url store_without file_path) payload]
      ∧ requests_put store_without (contents_url store_without file_path)
          payload = Ok resp
      ∧ (status_code resp = 200 ∨ status_code resp = 201)%Z.
Proof.
  assert (returned (publish_to_github store_without article_bogus)
          = Ok report_created) as Hret by by_running.
  split; [exact Hret|].
  destruct (publish_success_means_accepted_write store_without article_bogus
              report_created (VBool true) Hret eq_refl eq_refl)
    as (_ & _ & file_path & payload & resp & Hsent & Hput & Hcode & _).
  by exists file_path, payload, resp.
Defined.

Lemma sanitize_id_idempotent_witness :
  (∀ s, forallb is_ascii s = true → nfkd s = s)
  ∧ sanitize_id (sanitize_id (lit "Hello, World!"))
    = sanitize_id (lit "Hello, World!").
Proof.
  split; [reflexivity|].
  apply (@sanitize_id_idempotent ascii_runtime (λ s _, eq_refl)
           (lit "Hello, World!")).
Defined.

Lemma bot_id_survives_publisher_witness :
  make_article_id clk (str "Hello World") = Ok (lit "2026-11-03-hello-world")
  ∧ sanitize_id (lit "2026-11-03-hello-world")
    = lit "2026-11-03-hello-world".
Proof.
  split; [by_running|].
  apply (@bot_id_survives_publisher ascii_runtime (λ s _, eq_refl) clk
           (lit "Hello World")).
  - by repeat constructor.
  - intros Hs. vm_compute in Hs. discriminate.
  - by_running.
Defined.

Lemma list_articles_paths_witness :
  publish_remote_admin.list_articles store_listing = Ok listing
  ∧ ∀ p, p ∈ listing →
      ∃ cat name,
        p = cat ++ lit "/" ++ name
        ∧ cat ∈ publish_remote.VALID_CATEGORIES
        ∧ ends_with (lit ".mdx") name = true.
Proof.
  assert (publish_remote_admin.list_articles store_listing = Ok listing)
    as Hl by by_running.
  split; [exact Hl|]. intros p Hp.
  destruct (list_articles_paths store_listing listing Hl p Hp)
    as (cat & name & _ & _ & -> & Hcat & Hend & _).
  by exists cat, name.
Defined.

Lemma delete_article_needs_found_document_witness :
  let D := publish_remote_admin.delete_article store_with requests_delete_ok
             (lit "ai") (lit "2026-11-03-old") in
  ∃ payload,
    publish_remote_admin.deleted D
    = [(contents_url store_with (lit "content/ai/2026-11-03-old.mdx"),
        payload)]
    ∧ dict_get (lit "sha") payload = Some (str "3f2a").
Proof.
  intros D.
  destruct (delete_article_needs_found_document store_with requests_delete_ok
              (lit "ai") (lit "2026-11-03-old")) as (_ & Hdel & Hans).
  destruct (Hans [(lit "success", VBool true);
                  (lit "message",
                     str "Deleted: content/ai/2026-11-03-old.mdx")]
              (VBool true) eq_refl eq_refl eq_refl)
    as (payload & resp & Hd & _ & _).
  exists payload. split; [exact Hd|].
  destruct (Hdel (contents_url store_with
                    (lit "content/ai/2026-11-03-old.mdx")) payload)
    as (sha & Hsha & _ & _ & _ & Hp & _).
  { rewrite Hd. apply list_elem_of_here. }
  rewrite Hp. vm_compute in Hsha. injection Hsha as <-. reflexivity.
Defined.

(** The candidate without location is one of the rewriter. *)
Example candidate_unlocated_rewritten : rewritten entry candidate_unlocated.
Proof.
  exists (lit "technology"), (str "New title"), (str "Excerpt"), (str "Body"),
    (map str ["a"; "b"; "c"; "d"; "e"; "f"; "g"]%string), VNone.
  split; [reflexivity|].
  split; [by apply in_strs_elem|].
  split; [left; eexists; split; [reflexivity|vm_compute; lia]|].
  split; [vm_compute; lia|].
  split; [|by left].
  repeat constructor; by eexists.
Qed.

Lemma approved_candidate_reaches_the_api_witness :
  ∃ payload category rest,
    article_payload clk candidate_id candidate_unlocated = Ok payload
    ∧ dict_get (lit "category") candidate_unlocated = Some (VStr category)
    ∧ sent (publish_to_github store_without payload)
      = GET (contents_url store_without
               (target_path category (sanitize_id candidate_id)))
        :: rest.
Proof.
  apply (approved_candidate_reaches_the_api store_without entry
           candidate_unlocated candidate_id).
  - exact candidate_unlocated_rewritten.
  - eexists. reflexivity.
  - eexists. reflexivity.
  - eexists. reflexivity.
  - discriminate.
  - discriminate.
  - discriminate.
Defined.
End FurtherScenarios.
